(** * easy-input-to-spreadsheets: the storage layer, the tools and the
      chart heuristic

    A shallow embedding of [spreadsheet_manager.py] (class
    [SpreadsheetManager]) and, of [tools.py], of the argument parsing
    of [create_spreadsheet_tool], [add_row_tool] and [export_csv_tool]
    and of the column classifier and the choice of plot type and axes
    of [plot_data_tool], with the properties the specification states
    about them and further properties of the code.

    Conventions of the embedding.
    - A Python [str] is a [string]; a character is an [ascii], read as
      the code point of the same number (the Latin-1 range), and the
      [str] methods below are Python's restricted to that range.
    - A raised exception is the [Raise] case of [result]; a returned
      [dict] is a [reply].
    - The SQLite connection is a [database] value; each statement the
      manager executes is one function on it, named after the statement. *)

From Stdlib Require Import ZArith Ascii String List Bool Lia.
From stdpp Require Import base option list sorting gmap strings fin_maps pretty.


Local Open Scope Z_scope.

(* ===================================================================== *)
(** * Definitions *)
(* ===================================================================== *)

(** ** Exceptions and results *)

Inductive exn : Type :=
| IndexError            (* string index out of range *)
| OperationalError      (* sqlite3.OperationalError *)
| IntegrityError        (* sqlite3.IntegrityError *)
| ValueError            (* csv.DictWriter: fields not in fieldnames *)
| OSError               (* open() refused the path *)
| CsvError.             (* _csv.Error *)

Inductive result (A : Type) : Type :=
| Ok (a : A)
| Raise (e : exn).
Arguments Ok {A} a.
Arguments Raise {A} e.

Definition rbind {A B} (r : result A) (k : A -> result B) : result B :=
  match r with
  | Ok a => k a
  | Raise e => Raise e
  end.

(** ** Python string methods, on code points below 256 *)

Definition code (c : ascii) : Z := Z.of_N (N_of_ascii c).

Definition in_range (lo hi : Z) (c : ascii) : bool :=
  (lo <=? code c) && (code c <=? hi).

Definition is_upper_az (c : ascii) : bool := in_range 65 90 c.
Definition is_lower_az (c : ascii) : bool := in_range 97 122 c.
Definition is_09 (c : ascii) : bool := in_range 48 57 c.
Definition underscore : ascii := "_"%char.
Definition is_underscore (c : ascii) : bool := code c =? 95.

(** [str.isspace] on one code point: TAB..CR, FS..US, SPACE, NEL, NBSP. *)
Definition isspace (c : ascii) : bool :=
  in_range 9 13 c || in_range 28 32 c || (code c =? 133) || (code c =? 160).

(** [str.isdigit] on one code point: 0-9 and the superscripts 1, 2, 3. *)
Definition isdigit (c : ascii) : bool :=
  is_09 c || (code c =? 178) || (code c =? 179) || (code c =? 185).

(** [str.lower] on one code point: A-Z, and the Latin-1 capitals
    U+00C0..U+00DE except the multiplication sign U+00D7. *)
Definition lower_char (c : ascii) : ascii :=
  if is_upper_az c || (in_range 192 222 c && negb (code c =? 215))
  then ascii_of_N (N_of_ascii c + 32)
  else c.

Fixpoint string_map (f : ascii -> ascii) (s : string) : string :=
  match s with
  | EmptyString => EmptyString
  | String c s' => String (f c) (string_map f s')
  end.

Definition lower (s : string) : string := string_map lower_char s.

Fixpoint lstrip (s : string) : string :=
  match s with
  | EmptyString => EmptyString
  | String c s' => if isspace c then lstrip s' else s
  end.

Fixpoint rstrip (s : string) : string :=
  match s with
  | EmptyString => EmptyString
  | String c s' =>
      match rstrip s' with
      | EmptyString => if isspace c then EmptyString else String c EmptyString
      | r => String c r
      end
  end.

Definition strip (s : string) : string := rstrip (lstrip s).

(** The character class [[a-zA-Z0-9_]] of the sanitizer's pattern. *)
Definition in_class (c : ascii) : bool :=
  is_lower_az c || is_upper_az c || is_09 c || is_underscore c.

(** [re.sub(r'[^a-zA-Z0-9_]', '_', s)] *)
Definition re_sub_char (c : ascii) : ascii :=
  if in_class c then c else underscore.

Definition re_sub (s : string) : string := string_map re_sub_char s.

Fixpoint string_forallb (p : ascii -> bool) (s : string) : bool :=
  match s with
  | EmptyString => true
  | String c s' => p c && string_forallb p s'
  end.

(** [sep.join(l)] *)
Fixpoint join (sep : string) (l : list string) : string :=
  match l with
  | [] => ""
  | [x] => x
  | x :: l' => x +:+ sep +:+ join sep l'
  end.

(** [s.split(",")]: the pieces between the commas, never an empty list. *)
Fixpoint split_comma (s : string) : list string :=
  match s with
  | EmptyString => [""]
  | String c s' =>
      if Ascii.eqb c ","%char then "" :: split_comma s'
      else match split_comma s' with
           | [] => [String c ""]
           | x :: l => String c x :: l
           end
  end.

(** [s.replace(c, "")] for a one-character [c]. *)
Fixpoint remove_char (c : ascii) (s : string) : string :=
  match s with
  | EmptyString => EmptyString
  | String d s' => if Ascii.eqb d c then remove_char c s' else String d (remove_char c s')
  end.

(** Truth value of a [str]: non-empty. *)
Definition nonempty (s : string) : bool :=
  match s with
  | EmptyString => false
  | String _ _ => true
  end.

(** ** The identifier sanitizer *)

(** [SpreadsheetManager._sanitize_name]. [sanitized[0]] raises
    [IndexError] on the empty string. *)
Definition _sanitize_name (name : string) : result string :=
  let sanitized := re_sub (strip (lower name)) in
  match sanitized with
  | EmptyString => Raise IndexError
  | String c0 _ =>
      if isdigit c0 then Ok (String underscore sanitized) else Ok sanitized
  end.

(** The sanitizer as the specification words it: lowercase, replace every
    character outside [[a-z0-9_]] by an underscore, prefix an underscore
    when the result starts with a digit. *)
Definition in_target_class (c : ascii) : bool :=
  is_lower_az c || is_09 c || is_underscore c.

Definition spec_replace_char (c : ascii) : ascii :=
  if in_target_class c then c else underscore.

Definition spec_sanitize (name : string) : string :=
  let replaced := string_map spec_replace_char (lower name) in
  match replaced with
  | EmptyString => replaced
  | String c0 _ => if is_09 c0 then String underscore replaced else replaced
  end.

Definition starts_with_digit (s : string) : bool :=
  match s with
  | EmptyString => false
  | String c _ => is_09 c
  end.

(** A storage identifier: non-empty, over [[a-z0-9_]], no leading digit. *)
Definition is_identifier (s : string) : bool :=
  nonempty s && string_forallb in_target_class s && negb (starts_with_digit s).

(** ** SQLite values and tables *)

Inductive value : Type :=
| VNull                 (* None / NULL *)
| VInt (n : Z)
| VText (s : string).

(** [str(v)], as the f-strings and the CSV writer apply it. *)
Definition str (v : value) : string :=
  match v with
  | VNull => "None"
  | VInt n => pretty n
  | VText s => s
  end.

(** Truth value of a cell, as [if val:] tests it. *)
Definition truthy (v : value) : bool :=
  match v with
  | VNull => false
  | VInt n => negb (n =? 0)
  | VText s => nonempty s
  end.

(** A value stored in a column declared [TEXT]: an integer is converted
    to its decimal text. *)
Definition text_affinity (v : value) : value :=
  match v with
  | VInt n => VText (pretty n)
  | _ => v
  end.

(** A Python [dict] with string keys, in insertion order. *)
Definition dict : Type := list (string * value).

Fixpoint dict_get (d : dict) (k : string) : option value :=
  match d with
  | [] => None
  | (k', v) :: d' => if decide (k' = k) then Some v else dict_get d' k
  end.

(** [d[k] = v] *)
Fixpoint dict_set (k : string) (v : value) (d : dict) : dict :=
  match d with
  | [] => [(k, v)]
  | (k', v') :: d' =>
      if decide (k' = k) then (k, v) :: d' else (k', v') :: dict_set k v d'
  end.

(** A table created by the manager: [id INTEGER PRIMARY KEY
    AUTOINCREMENT] and the user columns, all [TEXT]. The rows are kept
    in rowid order, as the table's B-tree keeps them; a row holds one
    value per user column, in column order. *)
Record table : Type := Table {
  tcolumns : list string;
  trows : list (Z * list value)
}.

(** The connection: the user tables by (case-folded) name, the rows of
    [_spreadsheet_meta] ([name] is its primary key, [created_at] is
    never read by the operations below) and SQLite's own
    [sqlite_sequence], which holds the largest rowid each AUTOINCREMENT
    table has ever had. *)
Record database : Type := Database {
  tables : gmap string table;
  meta : gmap string string;
  sqlite_sequence : gmap string Z
}.

(** SQLite compares table names without regard to ASCII case. *)
Definition fold_char (c : ascii) : ascii :=
  if is_upper_az c then ascii_of_N (N_of_ascii c + 32) else c.

Definition sql_fold (name : string) : string := string_map fold_char name.

Fixpoint is_prefix (p s : string) : bool :=
  match p, s with
  | EmptyString, _ => true
  | String a p', String b s' => Ascii.eqb a b && is_prefix p' s'
  | String _ _, EmptyString => false
  end.

Definition meta_table_name : string := "_spreadsheet_meta".

(** A name no user table can be created under. *)
Definition name_taken (db : database) (name : string) : bool :=
  is_prefix "sqlite_" (sql_fold name)
  || bool_decide (sql_fold name = meta_table_name)
  || bool_decide (is_Some (tables db !! sql_fold name)).

Definition find_table (db : database) (name : string) : result table :=
  match tables db !! sql_fold name with
  | Some t => Ok t
  | None => Raise OperationalError      (* no such table / no such column: id *)
  end.

Definition max_rowid (rs : list (Z * list value)) : Z :=
  foldr Z.max 0 (map fst rs).

Definition max_int64 : Z := 9223372036854775807.

Definition is_nil {A} (l : list A) : bool :=
  match l with
  | [] => true
  | _ :: _ => false
  end.

(** Insertion of a row under a given rowid, keeping rowid order. *)
Fixpoint btree_insert (i : Z) (vals : list value) (rs : list (Z * list value))
  : result (list (Z * list value)) :=
  match rs with
  | [] => Ok [(i, vals)]
  | (j, w) :: rs' =>
      if i <? j then Ok ((i, vals) :: rs)
      else if i =? j then Raise IntegrityError   (* UNIQUE constraint failed *)
      else rbind (btree_insert i vals rs') (fun r => Ok ((j, w) :: r))
  end.

(** ** The statements the manager executes

    Each takes the database and returns its result with the new
    database, or raises; a statement that raises changes nothing. *)

(** [CREATE TABLE "name" (id INTEGER PRIMARY KEY AUTOINCREMENT, "c1" TEXT, ...)].
    The column definitions are spliced after a comma, so with no column
    the statement does not parse; column names, [id] included, must
    differ. *)
Definition create_table (name : string) (cols : list string) (db : database)
  : result (unit * database) :=
  match cols with
  | [] => Raise OperationalError                    (* near ")": syntax error *)
  | _ =>
      if name_taken db name then Raise OperationalError
      else if bool_decide (NoDup (map sql_fold ("id" :: cols))) then
        Ok (tt, Database (<[sql_fold name := Table cols []]> (tables db))
                         (meta db) (sqlite_sequence db))
      else Raise OperationalError                   (* duplicate column name *)
  end.

(** [SELECT ... FROM _spreadsheet_meta WHERE name = ?] *)
Definition meta_select (name : string) (db : database)
  : result (option string * database) :=
  Ok (meta db !! name, db).

(** [INSERT INTO _spreadsheet_meta (name, columns) VALUES (?, ?)] *)
Definition meta_insert (name cols : string) (db : database)
  : result (unit * database) :=
  match meta db !! name with
  | Some _ => Raise IntegrityError
  | None => Ok (tt, Database (tables db) (<[name := cols]> (meta db))
                             (sqlite_sequence db))
  end.

(** [UPDATE _spreadsheet_meta SET columns = ? WHERE name = ?] *)
Definition meta_update (cols name : string) (db : database)
  : result (unit * database) :=
  match meta db !! name with
  | Some _ => Ok (tt, Database (tables db) (<[name := cols]> (meta db))
                               (sqlite_sequence db))
  | None => Ok (tt, db)
  end.

(** [DELETE FROM _spreadsheet_meta WHERE name = ?] *)
Definition meta_delete (name : string) (db : database)
  : result (unit * database) :=
  Ok (tt, Database (tables db) (delete name (meta db)) (sqlite_sequence db)).

(** The rowid AUTOINCREMENT gives to a new row: one more than the
    largest rowid the table holds or has ever held. *)
Definition next_rowid (db : database) (name : string) (t : table) : result Z :=
  let top := Z.max (max_rowid (trows t))
                   (default 0 (sqlite_sequence db !! sql_fold name)) in
  if max_int64 <=? top then Raise OperationalError  (* database or disk is full *)
  else Ok (top + 1).

(** [INSERT INTO "name" ("k1", ...) VALUES (?, ...)] with the values of
    [d]; the columns not named get NULL. Returns [lastrowid]. *)
Definition insert_row (name : string) (d : dict) (db : database)
  : result (Z * database) :=
  rbind (find_table db name) (fun t =>
  if negb (is_nil d) && forallb (fun k => bool_decide (k ∈ tcolumns t)) (map fst d)
  then
    rbind (next_rowid db name t) (fun i =>
    let vals := map (fun c => default VNull (text_affinity <$> dict_get d c))
                    (tcolumns t) in
    rbind (btree_insert i vals (trows t)) (fun rs =>
    Ok (i, Database (<[sql_fold name := Table (tcolumns t) rs]> (tables db))
                    (meta db)
                    (<[sql_fold name := i]> (sqlite_sequence db)))))
  else Raise OperationalError).

(** [ALTER TABLE "name" ADD COLUMN "col" TEXT DEFAULT ?]. SQLite accepts
    a literal or a parenthesised constant expression after DEFAULT; the
    parameter marker is rejected when the statement is prepared. *)
Definition alter_table_add_column_default_param
  (name col : string) (dflt : value) (db : database) : result (unit * database) :=
  Raise OperationalError.                           (* near "?": syntax error *)

Fixpoint set_cell (cols : list string) (col : string) (v : value)
  (vals : list value) : list value :=
  match cols, vals with
  | c :: cols', w :: vals' =>
      if decide (c = col) then v :: vals' else w :: set_cell cols' col v vals'
  | _, _ => vals
  end.

(** [UPDATE "name" SET "col" = ? WHERE id = ?]. Returns [rowcount]. *)
Definition update_cell (name col : string) (v : value) (row_id : Z) (db : database)
  : result (Z * database) :=
  rbind (find_table db name) (fun t =>
  if bool_decide (col ∈ tcolumns t) then
    let rs := map (fun r : Z * list value =>
                     if fst r =? row_id
                     then (fst r, set_cell (tcolumns t) col (text_affinity v) (snd r))
                     else r) (trows t) in
    Ok (Z.of_nat (length (filter (fun r : Z * list value => fst r = row_id) (trows t))),
        Database (<[sql_fold name := Table (tcolumns t) rs]> (tables db))
                 (meta db) (sqlite_sequence db))
  else Raise OperationalError).                     (* no such column *)

(** [DELETE FROM "name" WHERE id = ?]. Returns [rowcount]. *)
Definition delete_from (name : string) (row_id : Z) (db : database)
  : result (Z * database) :=
  rbind (find_table db name) (fun t =>
  let rs := filter (fun r : Z * list value => fst r ≠ row_id) (trows t) in
  Ok (Z.of_nat (length (filter (fun r : Z * list value => fst r = row_id) (trows t))),
      Database (<[sql_fold name := Table (tcolumns t) rs]> (tables db))
               (meta db) (sqlite_sequence db))).

(** A result row as [dict(row)] gives it: [id] first, then the user
    columns in the table's order. *)
Definition row_dict (cols : list string) (r : Z * list value) : dict :=
  ("id", VInt (fst r)) :: zip cols (snd r).

(** [INSERT INTO "temp" (id, "c1", ...) SELECT id, "c1", ... FROM "name"].
    Every row of [name] is inserted into [temp] under its own rowid; an
    explicit rowid raises the sequence of [temp] to it. *)
Definition copy_row (src dst : table) (cols : list string) (r : Z * list value)
  : Z * list value :=
  (fst r,
   map (fun c => if bool_decide (c ∈ cols)
                 then default VNull (dict_get (zip (tcolumns src) (snd r)) c)
                 else VNull)
       (tcolumns dst)).

Definition insert_select (temp name : string) (cols : list string) (db : database)
  : result (unit * database) :=
  match cols with
  | [] => Raise OperationalError                    (* near ")": syntax error *)
  | _ =>
      rbind (find_table db name) (fun src =>
      rbind (find_table db temp) (fun dst =>
      if forallb (fun c => bool_decide (c ∈ tcolumns src)
                           && bool_decide (c ∈ tcolumns dst)) cols
      then
        rbind (foldl (fun acc r => rbind acc (btree_insert (fst r) (snd r)))
                     (Ok (trows dst))
                     (map (copy_row src dst cols) (trows src))) (fun rs =>
        Ok (tt, Database (<[sql_fold temp := Table (tcolumns dst) rs]> (tables db))
                         (meta db)
                         (<[sql_fold temp :=
                              Z.max (default 0 (sqlite_sequence db !! sql_fold temp))
                                    (max_rowid (trows src))]>
                            (sqlite_sequence db))))
      else Raise OperationalError))
  end.

(** [DROP TABLE "name"]: the table goes, and its sequence with it. *)
Definition drop_table (name : string) (db : database) : result (unit * database) :=
  rbind (find_table db name) (fun _ =>
  Ok (tt, Database (delete (sql_fold name) (tables db)) (meta db)
                   (delete (sql_fold name) (sqlite_sequence db)))).

(** [DROP TABLE IF EXISTS "name"], for the names the registry can hold:
    the registry's own table and SQLite's internal ones are refused. *)
Definition drop_table_if_exists (name : string) (db : database)
  : result (unit * database) :=
  match tables db !! sql_fold name with
  | Some _ => drop_table name db
  | None =>
      if is_prefix "sqlite_" (sql_fold name)
         || bool_decide (sql_fold name = meta_table_name)
      then Raise OperationalError
      else Ok (tt, db)
  end.

(** [ALTER TABLE "old" RENAME TO "new"]: the sequence follows the table. *)
Definition rename_table (old new : string) (db : database)
  : result (unit * database) :=
  rbind (find_table db old) (fun t =>
  if name_taken db new then Raise OperationalError
  else
    let seq := delete (sql_fold old) (sqlite_sequence db) in
    Ok (tt, Database (<[sql_fold new := t]> (delete (sql_fold old) (tables db)))
                     (meta db)
                     (match sqlite_sequence db !! sql_fold old with
                      | Some n => <[sql_fold new := n]> seq
                      | None => seq
                      end))).

(** [SELECT * FROM "name" ORDER BY id] *)
Definition select_all_order_by_id (name : string) (db : database)
  : result (list dict * database) :=
  rbind (find_table db name) (fun t =>
  Ok (map (row_dict (tcolumns t)) (trows t), db)).

(** ** The manager object *)

(** [self.conn] and [self.current_spreadsheet], with the part of the
    file system [export_csv] writes to: the text of each file, and the
    paths [open(path, "w")] refuses. *)
Record SpreadsheetManager : Type := Manager {
  conn : database;
  current_spreadsheet : option string;
  files : gmap string string;
  refused : gset string
}.

(** The dictionaries the operations return. *)
Inductive reply : Type :=
| Failure (error : string)
| FailureData (error : string) (columns : list string) (rows : list dict)
| Created (spreadsheet : string) (columns : list string) (message : string)
| RowAdded (row_id : Z) (message : string)
| ColumnAdded (column : string) (message : string)
| Done (message : string)
| Data (spreadsheet : string) (columns : list string) (rows : list dict)
| Switched (spreadsheet : string) (message : string)
| Exported (path : string) (message : string).

Definition success (r : reply) : bool :=
  match r with
  | Failure _ | FailureData _ _ _ => false
  | _ => true
  end.

Definition error (r : reply) : option string :=
  match r with
  | Failure e | FailureData e _ _ => Some e
  | _ => None
  end.

(** Methods: from the object to a returned value or a raised exception,
    and the object afterwards. *)
Definition M (A : Type) : Type :=
  SpreadsheetManager -> result A * SpreadsheetManager.

Definition ret {A} (a : A) : M A := fun s => (Ok a, s).

Definition raise {A} (e : exn) : M A := fun s => (Raise e, s).

Definition bind {A B} (m : M A) (k : A -> M B) : M B :=
  fun s =>
    match m s with
    | (Ok a, s') => k a s'
    | (Raise e, s') => (Raise e, s')
    end.

Definition lift {A} (r : result A) : M A := fun s => (r, s).

(** [self.conn.execute(...)] *)
Definition execute {A} (q : database -> result (A * database)) : M A :=
  fun s =>
    match q (conn s) with
    | Ok (a, db) => (Ok a, Manager db (current_spreadsheet s) (files s) (refused s))
    | Raise e => (Raise e, s)
    end.

Definition set_current (t : option string) : M unit :=
  fun s => (Ok tt, Manager (conn s) t (files s) (refused s)).

Notation "x <- m ;; k" := (bind m (fun x => k))
  (at level 100, m at next level, right associativity).
Notation "m ;;; k" := (bind m (fun _ => k))
  (at level 100, right associativity).

(** [[f(x) for x in l]], stopping at the first exception. *)
Fixpoint map_result {A B} (f : A -> result B) (l : list A) : result (list B) :=
  match l with
  | [] => Ok []
  | x :: l' => rbind (f x) (fun y => rbind (map_result f l') (fun r => Ok (y :: r)))
  end.

(** [spreadsheet or self.current_spreadsheet], and [None] when that is
    falsy: the table an operation works on, if any. *)
Definition target (spreadsheet : option string) (s : SpreadsheetManager)
  : option string :=
  let table := match spreadsheet with
               | Some t => if nonempty t then Some t else current_spreadsheet s
               | None => current_spreadsheet s
               end in
  match table with
  | Some t => if nonempty t then Some t else None
  | None => None
  end.

Definition no_selection : string := "No spreadsheet selected".

(** Run [k] on the target table, or return the no-selection failure. *)
Definition with_target (spreadsheet : option string) (k : string -> M reply)
  : M reply :=
  fun s =>
    match target spreadsheet s with
    | Some table => k table s
    | None => (Ok (Failure no_selection), s)
    end.

(** ** The operations of [SpreadsheetManager] *)

(** [__init__]: a connection whose registry is empty, nothing selected. *)
Definition empty_database : database := Database ∅ ∅ ∅.

Definition init (fs : gmap string string) (ro : gset string) : SpreadsheetManager :=
  Manager empty_database None fs ro.

Definition _spreadsheet_exists (name : string) : M bool :=
  row <- execute (meta_select name) ;;
  ret (bool_decide (is_Some row)).

(** [row["columns"].split(",") if row["columns"] else []] *)
Definition parse_columns (cols : string) : list string :=
  if nonempty cols then split_comma cols else [].

Definition get_columns (spreadsheet : option string) : M (list string) :=
  fun s =>
    match target spreadsheet s with
    | None => (Ok [], s)
    | Some table =>
        (row <- execute (meta_select table) ;;
         ret (match row with
              | Some cols => parse_columns cols
              | None => []
              end)) s
    end.

Definition create_spreadsheet (name : string) (columns : list string) : M reply :=
  table_name <- lift (_sanitize_name name) ;;
  taken <- _spreadsheet_exists table_name ;;
  if (taken : bool) then
    ret (Failure ("Spreadsheet '" +:+ name +:+ "' already exists"))
  else
    sanitized_columns <- lift (map_result _sanitize_name columns) ;;
    execute (create_table table_name sanitized_columns) ;;;
    execute (meta_insert table_name (join "," sanitized_columns)) ;;;
    set_current (Some table_name) ;;;
    ret (Created table_name sanitized_columns
           ("Created spreadsheet '" +:+ name +:+ "' with columns: "
            +:+ join ", " columns)).

(** The loop of [add_row] over [data.items()]. *)
Fixpoint sanitize_data (columns : list string) (data : dict) (acc : dict)
  : result dict :=
  match data with
  | [] => Ok acc
  | (key, v) :: data' =>
      rbind (_sanitize_name key) (fun sanitized_key =>
      sanitize_data columns data'
        (if bool_decide (sanitized_key ∈ columns)
         then dict_set sanitized_key v acc else acc))
  end.

Definition add_row (data : dict) (spreadsheet : option string) : M reply :=
  with_target spreadsheet (fun table =>
    columns <- get_columns (Some table) ;;
    sanitized_data <- lift (sanitize_data columns data []) ;;
    match sanitized_data with
    | [] => ret (Failure "No valid columns in data")
    | _ =>
        lastrowid <- execute (insert_row table sanitized_data) ;;
        ret (RowAdded lastrowid ("Added row " +:+ pretty lastrowid))
    end).

Definition add_column (column_name : string) (default_value : value)
  (spreadsheet : option string) : M reply :=
  with_target spreadsheet (fun table =>
    sanitized <- lift (_sanitize_name column_name) ;;
    columns <- get_columns (Some table) ;;
    if bool_decide (sanitized ∈ columns) then
      ret (Failure ("Column '" +:+ column_name +:+ "' already exists"))
    else
      execute (alter_table_add_column_default_param table sanitized default_value) ;;;
      execute (meta_update (join "," (columns ++ [sanitized])) table) ;;;
      ret (ColumnAdded sanitized ("Added column '" +:+ column_name +:+ "'"))).

Definition edit_cell (row_id : Z) (column : string) (v : value)
  (spreadsheet : option string) : M reply :=
  with_target spreadsheet (fun table =>
    sanitized_col <- lift (_sanitize_name column) ;;
    columns <- get_columns (Some table) ;;
    if bool_decide (sanitized_col ∈ columns) then
      rowcount <- execute (update_cell table sanitized_col v row_id) ;;
      if rowcount =? 0 then
        ret (Failure ("Row " +:+ pretty row_id +:+ " not found"))
      else
        ret (Done ("Updated row " +:+ pretty row_id +:+ ", column '" +:+ column
                   +:+ "' to '" +:+ str v +:+ "'"))
    else
      ret (Failure ("Column '" +:+ column +:+ "' not found"))).

Definition delete_row (row_id : Z) (spreadsheet : option string) : M reply :=
  with_target spreadsheet (fun table =>
    rowcount <- execute (delete_from table row_id) ;;
    if rowcount =? 0 then
      ret (Failure ("Row " +:+ pretty row_id +:+ " not found"))
    else
      ret (Done ("Deleted row " +:+ pretty row_id))).

(** [columns.remove(x)]: the first occurrence goes. *)
Fixpoint list_remove (x : string) (l : list string) : list string :=
  match l with
  | [] => []
  | y :: l' => if decide (y = x) then l' else y :: list_remove x l'
  end.

Definition delete_column (column_name : string) (spreadsheet : option string)
  : M reply :=
  with_target spreadsheet (fun table =>
    sanitized <- lift (_sanitize_name column_name) ;;
    columns <- get_columns (Some table) ;;
    if bool_decide (sanitized ∈ columns) then
      let columns := list_remove sanitized columns in
      let temp_table := "_temp_" +:+ table in
      execute (create_table temp_table columns) ;;;
      execute (insert_select temp_table table columns) ;;;
      execute (drop_table table) ;;;
      execute (rename_table temp_table table) ;;;
      execute (meta_update (join "," columns) table) ;;;
      ret (Done ("Deleted column '" +:+ column_name +:+ "'"))
    else
      ret (Failure ("Column '" +:+ column_name +:+ "' not found"))).

Definition get_data (spreadsheet : option string) : M reply :=
  fun s =>
    match target spreadsheet s with
    | None => (Ok (FailureData no_selection [] []), s)
    | Some table =>
        (columns <- get_columns (Some table) ;;
         rows <- execute (select_all_order_by_id table) ;;
         ret (Data table ("id" :: columns) rows)) s
    end.

Definition switch_spreadsheet (name : string) : M reply :=
  table <- lift (_sanitize_name name) ;;
  known <- _spreadsheet_exists table ;;
  if (known : bool) then
    set_current (Some table) ;;;
    ret (Switched table ("Switched to spreadsheet '" +:+ name +:+ "'"))
  else
    ret (Failure ("Spreadsheet '" +:+ name +:+ "' not found")).

Definition delete_spreadsheet (name : string) : M reply :=
  table <- lift (_sanitize_name name) ;;
  known <- _spreadsheet_exists table ;;
  if (known : bool) then
    execute (drop_table_if_exists table) ;;;
    execute (meta_delete table) ;;;
    (fun s =>
       if bool_decide (current_spreadsheet s = Some table)
       then set_current None s else (Ok tt, s)) ;;;
    ret (Done ("Deleted spreadsheet '" +:+ name +:+ "'"))
  else
    ret (Failure ("Spreadsheet '" +:+ name +:+ "' not found")).

(** ** The CSV writer ([csv.DictWriter], excel dialect) *)

Definition CR : ascii := "013"%char.
Definition LF : ascii := "010"%char.
Definition DQUOTE : ascii := "034"%char.
Definition COMMA : ascii := ","%char.

Definition crlf : string := String CR (String LF "").

Definition is_newline (c : ascii) : bool := Ascii.eqb c CR || Ascii.eqb c LF.

(** The characters that make QUOTE_MINIMAL quote a field: the delimiter,
    the quote character and those of the line terminator. *)
Definition special (c : ascii) : bool :=
  Ascii.eqb c COMMA || Ascii.eqb c DQUOTE || is_newline c.

Fixpoint string_existsb (p : ascii -> bool) (s : string) : bool :=
  match s with
  | EmptyString => false
  | String c s' => p c || string_existsb p s'
  end.

Fixpoint double_quotes (s : string) : string :=
  match s with
  | EmptyString => EmptyString
  | String c s' =>
      if Ascii.eqb c DQUOTE then String DQUOTE (String DQUOTE (double_quotes s'))
      else String c (double_quotes s')
  end.

Definition csv_field (s : string) : string :=
  if string_existsb special s
  then String DQUOTE (double_quotes s +:+ String DQUOTE "")
  else s.

(** [writer.writerow(fields)]: a record whose text would be empty, a
    single empty field, is written as a quoted empty field. *)
Definition csv_record (fields : list string) : string :=
  let line := join "," (map csv_field fields) in
  match fields, line with
  | _ :: _, EmptyString => String DQUOTE (String DQUOTE crlf)
  | _, _ => line +:+ crlf
  end.

(** The text the writer makes of a cell: nothing for [None]. *)
Definition csv_cell (v : value) : string :=
  match v with
  | VNull => ""
  | _ => str v
  end.

(** [DictWriter._dict_to_list], with [extrasaction="raise"] and
    [restval=""]. *)
Definition dict_to_list (fieldnames : list string) (rowdict : dict)
  : result (list value) :=
  if forallb (fun k => bool_decide (k ∈ fieldnames)) (map fst rowdict)
  then Ok (map (fun k => default (VText "") (dict_get rowdict k)) fieldnames)
  else Raise ValueError.

(** [open(path, "w")]: the file is created or emptied. *)
Definition open_w (path : string) : M unit :=
  fun s =>
    if bool_decide (path ∈ refused s) then (Raise OSError, s)
    else (Ok tt, Manager (conn s) (current_spreadsheet s)
                         (<[path := ""]> (files s)) (refused s)).

Definition write (path text : string) : M unit :=
  fun s =>
    (Ok tt, Manager (conn s) (current_spreadsheet s)
                    (<[path := default "" (files s !! path) +:+ text]> (files s))
                    (refused s)).

(** [writer.writerows(rows)]: the rows before a refused one are written. *)
Fixpoint writerows (path : string) (fieldnames : list string) (rows : list dict)
  : M unit :=
  match rows with
  | [] => ret tt
  | row :: rows' =>
      fields <- lift (dict_to_list fieldnames row) ;;
      write path (csv_record (map csv_cell fields)) ;;;
      writerows path fieldnames rows'
  end.

Definition default_export_path (table : string) : string :=
  "exports/" +:+ table +:+ ".csv".

Definition export_csv (path : option string) (spreadsheet : option string)
  : M reply :=
  with_target spreadsheet (fun table =>
    let path := default (default_export_path table) path in
    data <- get_data (Some table) ;;
    match data with
    | Data _ columns rows =>
        open_w path ;;;
        write path (csv_record columns) ;;;
        writerows path columns rows ;;;
        ret (Exported path ("Exported to " +:+ path))
    | _ => ret data
    end).

(** ** Reading the file back ([csv.reader], excel dialect, over a file
    opened with [newline=""]) *)

Inductive pstate : Type :=
| START_RECORD | START_FIELD | IN_FIELD
| IN_QUOTED_FIELD | QUOTE_IN_QUOTED_FIELD | EAT_CRNL.

Record parser : Type := Parser {
  state : pstate;
  field : string;
  fields : list string
}.

Definition fresh : parser := Parser START_RECORD "" [].

Definition save_field (p : parser) (st : pstate) : parser :=
  Parser st "" (fields p ++ [field p]).

Definition add_char (p : parser) (c : ascii) (st : pstate) : parser :=
  Parser st (field p +:+ String c "") (fields p).

Definition set_state (p : parser) (st : pstate) : parser :=
  Parser st (field p) (fields p).

(** The end of a field or of a record: [None] is the end of a line. *)
Definition after_field (c : option ascii) : pstate :=
  match c with
  | None => START_RECORD
  | Some _ => EAT_CRNL
  end.

Definition ends_line (c : option ascii) : bool :=
  match c with
  | None => true
  | Some ch => is_newline ch
  end.

Definition is_char (d : ascii) (c : option ascii) : bool :=
  match c with
  | None => false
  | Some ch => Ascii.eqb ch d
  end.

Definition start_field (p : parser) (c : option ascii) : result parser :=
  match c with
  | None => Ok (save_field p START_RECORD)
  | Some ch =>
      if is_newline ch then Ok (save_field p EAT_CRNL)
      else if Ascii.eqb ch DQUOTE then Ok (set_state p IN_QUOTED_FIELD)
      else if Ascii.eqb ch COMMA then Ok (save_field p START_FIELD)
      else Ok (add_char p ch IN_FIELD)
  end.

(** [parse_process_char] *)
Definition process_char (p : parser) (c : option ascii) : result parser :=
  match state p with
  | START_RECORD =>
      match c with
      | None => Ok p
      | Some ch =>
          if is_newline ch then Ok (set_state p EAT_CRNL) else start_field p c
      end
  | START_FIELD => start_field p c
  | IN_FIELD =>
      match c with
      | None => Ok (save_field p START_RECORD)
      | Some ch =>
          if is_newline ch then Ok (save_field p EAT_CRNL)
          else if Ascii.eqb ch COMMA then Ok (save_field p START_FIELD)
          else Ok (add_char p ch IN_FIELD)
      end
  | IN_QUOTED_FIELD =>
      match c with
      | None => Ok p
      | Some ch =>
          if Ascii.eqb ch DQUOTE then Ok (set_state p QUOTE_IN_QUOTED_FIELD)
          else Ok (add_char p ch IN_QUOTED_FIELD)
      end
  | QUOTE_IN_QUOTED_FIELD =>
      match c with
      | None => Ok (save_field p START_RECORD)
      | Some ch =>
          if Ascii.eqb ch DQUOTE then Ok (add_char p ch IN_QUOTED_FIELD)
          else if Ascii.eqb ch COMMA then Ok (save_field p START_FIELD)
          else if is_newline ch then Ok (save_field p EAT_CRNL)
          else Ok (add_char p ch IN_FIELD)
      end
  | EAT_CRNL =>
      match c with
      | None => Ok (set_state p START_RECORD)
      | Some ch => if is_newline ch then Ok p else Raise CsvError
      end
  end.

(** Whether the file's line ends after [c], given the text that follows:
    after LF, after a CR not followed by LF, and at the end of the text. *)
Definition line_ends_after (c : ascii) (rest : string) : bool :=
  match rest with
  | EmptyString => true
  | String d _ =>
      Ascii.eqb c LF || (Ascii.eqb c CR && negb (Ascii.eqb d LF))
  end.

Definition is_start_record (st : pstate) : bool :=
  match st with
  | START_RECORD => true
  | _ => false
  end.

Definition is_in_quoted (st : pstate) : bool :=
  match st with
  | IN_QUOTED_FIELD => true
  | _ => false
  end.

(** The reader's loop: every character of a line, then the end of the
    line; a record is complete when the line ends in [START_RECORD]. *)
Fixpoint reader (p : parser) (s : string) : result (list (list string)) :=
  match s with
  | EmptyString =>
      if nonempty (field p) || is_in_quoted (state p)
      then Ok [fields p ++ [field p]]
      else Ok []
  | String c s' =>
      rbind (process_char p (Some c)) (fun p1 =>
      if line_ends_after c s' then
        rbind (process_char p1 None) (fun p2 =>
        if is_start_record (state p2)
        then rbind (reader fresh s') (fun recs => Ok (fields p2 :: recs))
        else reader p2 s')
      else reader p1 s')
  end.

Definition csv_read (text : string) : result (list (list string)) :=
  reader fresh text.

(** ** Sequences of operations *)

Inductive call : Type :=
| CreateSpreadsheet (name : string) (columns : list string)
| AddRow (data : dict) (spreadsheet : option string)
| AddColumn (column_name : string) (default_value : value) (spreadsheet : option string)
| EditCell (row_id : Z) (column : string) (v : value) (spreadsheet : option string)
| DeleteRow (row_id : Z) (spreadsheet : option string)
| DeleteColumn (column_name : string) (spreadsheet : option string)
| GetData (spreadsheet : option string)
| SwitchSpreadsheet (name : string)
| ExportCsv (path : option string) (spreadsheet : option string)
| DeleteSpreadsheet (name : string).

Definition perform (c : call) : M reply :=
  match c with
  | CreateSpreadsheet name columns => create_spreadsheet name columns
  | AddRow data spreadsheet => add_row data spreadsheet
  | AddColumn column_name default_value spreadsheet =>
      add_column column_name default_value spreadsheet
  | EditCell row_id column v spreadsheet => edit_cell row_id column v spreadsheet
  | DeleteRow row_id spreadsheet => delete_row row_id spreadsheet
  | DeleteColumn column_name spreadsheet => delete_column column_name spreadsheet
  | GetData spreadsheet => get_data spreadsheet
  | SwitchSpreadsheet name => switch_spreadsheet name
  | ExportCsv path spreadsheet => export_csv path spreadsheet
  | DeleteSpreadsheet name => delete_spreadsheet name
  end.

(** The explicit target of a call. It is spliced between double quotes
    into the statements, which the statement functions above read as one
    identifier: so it must itself be free of double quotes. *)
Definition explicit_target (c : call) : option string :=
  match c with
  | AddRow _ t | AddColumn _ _ t | EditCell _ _ _ t | DeleteRow _ t
  | DeleteColumn _ t | GetData t | ExportCsv _ t => t
  | _ => None
  end.

Definition plain_target (c : call) : bool :=
  match explicit_target c with
  | Some t => negb (string_existsb (fun ch => Ascii.eqb ch DQUOTE) t)
  | None => true
  end.

(** The states of the manager: a fresh database, any call on a state,
    whether it returns or raises, and a new session on the same database
    (nothing selected, the file system as it then is). *)
Inductive reachable : SpreadsheetManager -> Prop :=
| reachable_init fs ro : reachable (init fs ro)
| reachable_step s c :
    reachable s -> plain_target c = true -> reachable (snd (perform c s))
| reachable_reopen s fs ro :
    reachable s -> reachable (Manager (conn s) None fs ro)
| reachable_select s t :
    reachable s -> is_Some (meta (conn s) !! t) ->
    reachable (Manager (conn s) (Some t) (files s) (refused s)).

(** ** The invariant of the data model *)

Definition reserved (name : string) : bool :=
  is_prefix "sqlite_" name || bool_decide (name = meta_table_name).

(** A physical table: at least one user column, the columns distinct
    identifiers other than [id], every row as wide as the column list,
    the rows in strictly increasing rowid order. *)
Record table_ok (t : table) : Prop := TableOk {
  ok_columns : tcolumns t ≠ [];
  ok_identifiers : Forall (fun c => is_identifier c = true) (tcolumns t);
  ok_nodup : NoDup (tcolumns t);
  ok_no_id : "id" ∉ tcolumns t;
  ok_widths : Forall (fun r : Z * list value => length (snd r) = length (tcolumns t))
                     (trows t);
  ok_sorted : StronglySorted Z.lt (map fst (trows t))
}.

(** A registry entry exists iff the physical table exists; the registry
    lists the table's columns, in order; sequences belong to existing
    tables. *)
Record db_wf (db : database) : Prop := DbWf {
  wf_tables : forall n t,
    tables db !! n = Some t ->
    is_identifier n = true /\ reserved n = false /\ table_ok t /\
    meta db !! n = Some (join "," (tcolumns t));
  wf_meta : forall n, is_Some (meta db !! n) -> is_Some (tables db !! n);
  wf_sequence : forall n,
    is_Some (sqlite_sequence db !! n) -> is_Some (tables db !! n)
}.

(** The selection, if any, is registered. *)
Record wf (s : SpreadsheetManager) : Prop := Wf {
  wf_conn : db_wf (conn s);
  wf_current : forall t,
    current_spreadsheet s = Some t -> is_Some (meta (conn s) !! t)
}.

Definition comma_free (s : string) : bool :=
  negb (string_existsb (fun c => Ascii.eqb c ","%char) s).

(** The value of a cell of a stored row, by column name. *)
Definition cell (t : table) (r : Z * list value) (c : string) : option value :=
  dict_get (zip (tcolumns t) (snd r)) c.

(** ** The chart heuristic of [plot_data_tool] *)

Section Plot.

(** [float(s)] returns, rather than raising [ValueError]. *)
Variable parses_as_float : string -> bool.

Definition DOLLAR : ascii := "$"%char.

(** [float(str(val).replace(",", "").replace("$", ""))] returns. *)
Definition numeric_value (val : value) : bool :=
  parses_as_float (remove_char DOLLAR (remove_char COMMA (str val))).

(** [row.get(col, "")] *)
Definition row_get (row : dict) (col : string) : value :=
  default (VText "") (dict_get row col).

Fixpoint is_numeric_column (rows : list dict) (col : string) : bool :=
  match rows with
  | [] => false
  | row :: rows' =>
      let val := row_get row col in
      if truthy val then
        if numeric_value val then true else is_numeric_column rows' col
      else is_numeric_column rows' col
  end.

Definition plottable_cols (columns : list string) : list string :=
  filter (fun c => c ≠ "id") columns.

Definition numeric_cols (rows : list dict) (columns : list string) : list string :=
  filter (fun c => is_numeric_column rows c = true) (plottable_cols columns).

Definition categorical_cols (rows : list dict) (columns : list string)
  : list string :=
  filter (fun c => c ∉ numeric_cols rows columns) (plottable_cols columns).

(** The branch taken when [plot_type] is empty. *)
Definition auto_plot_type (numeric categorical : list string) : string :=
  if (2 <=? length numeric)%nat then "scatter"
  else if (length numeric =? 1)%nat && negb (is_nil categorical) then "bar"
  else if (length numeric =? 1)%nat then "histogram"
  else if negb (is_nil categorical) then "bar"
  else "bar".

(** [plot_data_tool] up to the choice of the plot type: the error text
    returned, or the plot type the chart is drawn with. [plot_type] is
    [args.get("plot_type", "")]. *)
Definition plot_type_chosen (data : reply) (plot_type : string)
  : string + string :=
  match data with
  | Data _ columns rows =>
      if is_nil rows then inl "Error: No data to plot. The spreadsheet is empty."
      else
        let plot_type := strip (lower plot_type) in
        if is_nil (plottable_cols columns)
        then inl "Error: No plottable columns in the spreadsheet."
        else if nonempty plot_type then inr plot_type
        else inr (auto_plot_type (numeric_cols rows columns)
                                 (categorical_cols rows columns))
  | Failure e | FailureData e _ _ => inl ("Error: " +:+ e)
  | _ => inl "Error: "
  end.

(** The axis columns, when the arguments leave them empty, and whether
    the bar chart then counts the occurrences of the x values instead
    of plotting the y column. *)
Definition choose_x (x_column : string) (numeric categorical plottable : list string)
  : string :=
  if nonempty x_column then x_column
  else match categorical, numeric with
       | c :: _, _ => c
       | [], c :: _ => c
       | [], [] => hd "" plottable
       end.

Definition choose_y (y_column plot_type x_column : string) (numeric : list string)
  : string :=
  if negb (nonempty y_column)
     && negb (bool_decide (plot_type ∈ ["histogram"; "pie"]))
  then match numeric with
       | [] => y_column
       | first :: _ =>
           match filter (fun c => c ≠ x_column) numeric with
           | c :: _ => c
           | [] => first
           end
       end
  else y_column.


End Plot.

(** The registry's column list of a table, as [get_columns] reads it,
    and the rows the physical table holds. *)
Definition registry_columns (s : SpreadsheetManager) (t : string) : list string :=
  match meta (conn s) !! t with
  | Some cols => parse_columns cols
  | None => []
  end.

Definition stored_rows (s : SpreadsheetManager) (t : string)
  : list (Z * list value) :=
  match tables (conn s) !! sql_fold t with
  | Some tb => trows tb
  | None => []
  end.

(** The table [delete_column] leaves in place of [t] when it removes
    column [c]: the remaining columns, and every row under its rowid
    with its values in them. *)
Definition rebuilt (t : table) (c : string) : table :=
  let columns := list_remove c (tcolumns t) in
  Table columns (map (copy_row t (Table columns []) columns) (trows t)).

(** The operations that take an optional target spreadsheet. *)
Definition takes_target (c : call) : bool :=
  match c with
  | AddRow _ _ | AddColumn _ _ _ | EditCell _ _ _ _ | DeleteRow _ _
  | DeleteColumn _ _ | GetData _ | ExportCsv _ _ => true
  | _ => false
  end.

(** A sequence of calls, with what each returned or raised. *)
Fixpoint run (cs : list call) (s : SpreadsheetManager)
  : list (result reply) * SpreadsheetManager :=
  match cs with
  | [] => ([], s)
  | c :: cs' =>
      let (r, s1) := perform c s in
      let (rs, s2) := run cs' s1 in
      (r :: rs, s2)
  end.

Definition after (cs : list call) : SpreadsheetManager :=
  snd (run cs (init ∅ ∅)).

(** A small session: one spreadsheet with two rows. *)
Definition demo : SpreadsheetManager :=
  after [CreateSpreadsheet "Expenses" ["Item"; "Amount"];
         AddRow [("item", VText "coffee"); ("amount", VText "5")] None;
         AddRow [("item", VText "tea"); ("amount", VText "3")] None].

(** ** Proof steps *)

Ltac split_all := repeat match goal with |- _ /\ _ => split end.

(** Closed statements about concrete sessions are settled by evaluation. *)
Ltac evaluate := split_all; vm_compute; reflexivity.

(** A stand-in for [float] in the examples: the unsigned decimal
    numerals, which [float] accepts. *)
Definition decimal_numeral (s : string) : bool :=
  nonempty s && string_forallb is_09 s.

Definition demo_rows : list dict :=
  [[("id", VInt 1); ("item", VText "coffee"); ("amount", VText "5")];
   [("id", VInt 2); ("item", VText "tea"); ("amount", VText "3")]].



(** [s] between double quotes, and a session whose cells hold a comma,
    quotes, a line break and a missing value, exported to [out.csv]. *)
Definition quoted (s : string) : string := String DQUOTE (s +:+ String DQUOTE "").

Definition notes_exported : SpreadsheetManager :=
  after [CreateSpreadsheet "Notes" ["who"; "what"];
         AddRow [("who", VText "a,b"); ("what", VText ("say " +:+ quoted "hi"))] None;
         AddRow [("what", VText (String "x" (String LF "y")))] None;
         ExportCsv (Some "out.csv") None].


(** Not empty and not only whitespace. *)
Definition nonblank (s : string) : bool := nonempty (strip s).

(** The call [c] with its optional target argument given as [t]. *)
Definition retarget (t : option string) (c : call) : call :=
  match c with
  | AddRow data _ => AddRow data t
  | AddColumn column_name default_value _ => AddColumn column_name default_value t
  | EditCell row_id column v _ => EditCell row_id column v t
  | DeleteRow row_id _ => DeleteRow row_id t
  | DeleteColumn column_name _ => DeleteColumn column_name t
  | GetData _ => GetData t
  | ExportCsv path _ => ExportCsv path t
  | _ => c
  end.


(** ** The tools of [tools.py]

    A tool function calls the manager and returns a content text with
    an [is_error] flag; an exception of the manager leaves the function.
    What the tools print on the console is left out. *)

Record tool_result : Type := ToolResult {
  tool_text : string;
  is_error : bool
}.

Definition COLON : ascii := ":"%char.

(** [pair.split(":", 1)] when [":" in pair]: the text before the first
    colon and the text after it. *)
Fixpoint split_colon (pair : string) : option (string * string) :=
  match pair with
  | EmptyString => None
  | String c rest =>
      if Ascii.eqb c COLON then Some (EmptyString, rest)
      else match split_colon rest with
           | Some (key, v) => Some (String c key, v)
           | None => None
           end
  end.


(** [result["row_id"]] of a reply of [add_row]. *)
Definition row_id_of (r : reply) : Z :=
  match r with
  | RowAdded row_id _ => row_id
  | _ => 0
  end.



(** The loop of [add_row_tool] over [data_str.split(",")]. *)
Definition add_pair (data : dict) (pair : string) : dict :=
  match split_colon pair with
  | Some (key, v) => dict_set (strip key) (VText (strip v)) data
  | None => data
  end.

Definition pairs_of (data_str : string) : dict :=
  fold_left add_pair (split_comma data_str) [].

Definition add_row_tool (data_str : string) : M tool_result :=
  let data := pairs_of data_str in
  if is_nil data
  then ret (ToolResult
              "Error: No valid data provided. Use format 'column:value, column:value'"
              true)
  else
    result <- add_row data None ;;
    match result with
    | Failure e | FailureData e _ _ => ret (ToolResult ("Error: " +:+ e) true)
    | _ =>
        get_data None ;;;
        ret (ToolResult ("Added row " +:+ pretty (row_id_of result)
                         +:+ ". The updated spreadsheet is now displayed.") false)
    end.




(* ===================================================================== *)
(** * Properties *)
(* ===================================================================== *)

(** ** Characters *)

Lemma lower_char_not_upper (c : ascii) : is_upper_az (lower_char c) = false.
Proof. destruct c as [[] [] [] [] [] [] [] []]; vm_compute; reflexivity. Qed.

Lemma re_sub_lower_char (c : ascii) :
  re_sub_char (lower_char c) = spec_replace_char (lower_char c).
Proof. destruct c as [[] [] [] [] [] [] [] []]; vm_compute; reflexivity. Qed.

Lemma re_sub_lower_in_target (c : ascii) :
  in_target_class (re_sub_char (lower_char c)) = true.
Proof. destruct c as [[] [] [] [] [] [] [] []]; vm_compute; reflexivity. Qed.

Lemma isdigit_in_class (c : ascii) :
  in_class c = true -> isdigit c = is_09 c.
Proof. destruct c as [[] [] [] [] [] [] [] []]; vm_compute; intros; congruence. Qed.

Lemma isspace_lower_char (c : ascii) : isspace (lower_char c) = isspace c.
Proof. destruct c as [[] [] [] [] [] [] [] []]; vm_compute; reflexivity. Qed.

Lemma target_class_fixed (c : ascii) :
  in_target_class c = true ->
  lower_char c = c /\ re_sub_char c = c /\ isspace c = false /\ isdigit c = is_09 c.
Proof. destruct c as [[] [] [] [] [] [] [] []]; vm_compute; intros; repeat split; congruence. Qed.

(** ** Strings *)

Lemma string_map_empty (f : ascii -> ascii) (s : string) :
  string_map f s = "" <-> s = "".
Proof. destruct s; simpl; split; intros; congruence. Qed.

Lemma lstrip_lower (s : string) : lstrip (lower s) = lower (lstrip s).
Proof.
  induction s as [|c s IH]; simpl; [reflexivity|].
  rewrite isspace_lower_char. destruct (isspace c); [exact IH | reflexivity].
Qed.

Lemma rstrip_lower (s : string) : rstrip (lower s) = lower (rstrip s).
Proof.
  induction s as [|c s IH]; simpl; [reflexivity|].
  fold (lower s). rewrite IH, isspace_lower_char.
  destruct (rstrip s) as [|d r]; simpl; [|reflexivity].
  destruct (isspace c); reflexivity.
Qed.

Lemma strip_lower (s : string) : strip (lower s) = lower (strip s).
Proof. unfold strip. now rewrite lstrip_lower, rstrip_lower. Qed.

Lemma re_sub_lower (s : string) :
  re_sub (lower s) = string_map spec_replace_char (lower s).
Proof.
  unfold re_sub, lower.
  induction s as [|c s IH]; cbn [string_map]; [reflexivity|].
  now rewrite re_sub_lower_char, IH.
Qed.

Lemma re_sub_lower_forall (s : string) :
  string_forallb in_target_class (re_sub (lower s)) = true.
Proof.
  unfold re_sub, lower.
  induction s as [|c s IH]; cbn [string_map string_forallb]; [reflexivity|].
  now rewrite re_sub_lower_in_target, IH.
Qed.

Lemma target_string_fixed (s : string) :
  string_forallb in_target_class s = true ->
  lower s = s /\ re_sub s = s /\ strip s = s.
Proof.
  intros H. unfold lower, re_sub.
  assert (Hl : string_map lower_char s = s /\
               string_map re_sub_char s = s /\ rstrip s = s).
  { induction s as [|c s IH]; cbn [string_map string_forallb rstrip] in *; [auto|].
    apply andb_prop in H as [Hc Hs].
    destruct (target_class_fixed c Hc) as (Hlc & Hrc & Hsp & _).
    destruct (IH Hs) as (IHl & IHr & IHs).
    rewrite Hlc, Hrc, IHl, IHr, IHs, Hsp. repeat split. now destruct s. }
  destruct Hl as (Hl & Hr & Hs). repeat split; try assumption.
  unfold strip. destruct s as [|c s]; [reflexivity|].
  cbn [string_forallb] in H. apply andb_prop in H as [Hc _].
  destruct (target_class_fixed c Hc) as (_ & _ & Hsp & _).
  cbn [lstrip]. rewrite Hsp. exact Hs.
Qed.

(** ** The sanitizer *)

(** What the code computes, in the specification's own terms: strip the
    surrounding whitespace, then sanitize as specified. *)
Lemma sanitize_strip_spec (x : string) :
  strip x <> "" -> _sanitize_name x = Ok (spec_sanitize (strip x)).
Proof.
  intros Hne. unfold _sanitize_name, spec_sanitize.
  rewrite strip_lower, re_sub_lower.
  pose proof (re_sub_lower_forall (strip x)) as Hall.
  rewrite re_sub_lower in Hall.
  destruct (string_map spec_replace_char (lower (strip x))) as [|c0 r] eqn:E.
  - apply string_map_empty in E. apply string_map_empty in E. contradiction.
  - simpl in Hall. apply andb_prop in Hall as [Hc _].
    destruct (target_class_fixed c0 Hc) as (_ & _ & _ & ->).
    destruct (is_09 c0); reflexivity.
Qed.

Lemma sanitize_blank (x : string) :
  strip x = "" -> _sanitize_name x = Raise IndexError.
Proof.
  intros He. unfold _sanitize_name. now rewrite strip_lower, He.
Qed.

Lemma sanitize_inv (x y : string) :
  _sanitize_name x = Ok y -> is_identifier y = true.
Proof.
  unfold _sanitize_name. rewrite strip_lower.
  pose proof (re_sub_lower_forall (strip x)) as Hall.
  destruct (re_sub (lower (strip x))) as [|c0 r]; [discriminate|].
  cbn [string_forallb] in Hall. apply andb_prop in Hall as [Hc Hr].
  destruct (target_class_fixed c0 Hc) as (_ & _ & _ & Hd). rewrite Hd.
  destruct (is_09 c0) eqn:E; intros [= <-]; unfold is_identifier;
    cbn [nonempty string_forallb starts_with_digit];
    rewrite ?Hc, ?Hr, ?E; reflexivity.
Qed.

Lemma sanitize_identifier (y : string) :
  is_identifier y = true -> _sanitize_name y = Ok y.
Proof.
  unfold is_identifier. intros H.
  apply andb_prop in H as [H Hd]. apply andb_prop in H as [Hn Hall].
  destruct (target_string_fixed y Hall) as (Hl & Hr & Hs).
  unfold _sanitize_name. rewrite Hl, Hs, Hr.
  destruct y as [|c0 r]; [discriminate|].
  simpl in Hall. apply andb_prop in Hall as [Hc _].
  destruct (target_class_fixed c0 Hc) as (_ & _ & _ & ->).
  simpl in Hd. now destruct (is_09 c0).
Qed.

(** C9, as the code has it. For every input that is not empty or
    whitespace-only, the sanitizer returns the name obtained by stripping
    the surrounding whitespace, lowercasing, replacing every character
    outside [a-z0-9_] by an underscore and prefixing an underscore when
    the result starts with a digit; it is idempotent, its output never
    starts with a digit and contains only characters of [a-z0-9_]. *)
Theorem sanitize_name_spec (x : string) :
  strip x <> "" ->
  exists y,
    _sanitize_name x = Ok y /\
    y = spec_sanitize (strip x) /\
    _sanitize_name y = Ok y /\
    starts_with_digit y = false /\
    string_forallb in_target_class y = true.
Proof.
  intros Hne. exists (spec_sanitize (strip x)).
  pose proof (sanitize_strip_spec x Hne) as Hx.
  pose proof (sanitize_inv _ _ Hx) as Hid.
  split; [exact Hx|]. split; [reflexivity|].
  split; [now apply sanitize_identifier|].
  unfold is_identifier in Hid.
  apply andb_prop in Hid as [Hid Hd]. apply andb_prop in Hid as [_ Hall].
  split; [now apply negb_true_iff in Hd | exact Hall].
Qed.

Lemma sanitize_name_spec_witness :
  strip "  My List! " <> "" /\
  exists y,
    _sanitize_name "  My List! " = Ok y /\
    y = spec_sanitize (strip "  My List! ") /\
    _sanitize_name y = Ok y /\
    starts_with_digit y = false /\
    string_forallb in_target_class y = true.
Proof.
  split; [vm_compute; discriminate|].
  apply (sanitize_name_spec "  My List! "). vm_compute. discriminate.
Defined.

(** C9 as stated fails: with a leading blank the code strips it, where
    lowercase-replace-prefix alone turns it into an underscore. *)
Lemma sanitize_name_not_spec :
  ~ (_sanitize_name " a" = Ok (spec_sanitize " a")).
Proof. vm_compute. discriminate. Qed.

Example sanitize_examples :
  _sanitize_name "My List!" = Ok "my_list_" /\
  _sanitize_name "2024 Q1" = Ok "_2024_q1" /\
  _sanitize_name " a" = Ok "a" /\
  spec_sanitize " a" = "_a" /\
  _sanitize_name "" = Raise IndexError /\
  _sanitize_name "   " = Raise IndexError.
Proof. evaluate. Qed.

(** ** Joining and splitting the registry's column list *)

Lemma append_cons (c : ascii) (s t : string) :
  String c s +:+ t = String c (s +:+ t).
Proof. reflexivity. Qed.




Lemma split_comma_app (x rest : string) :
  comma_free x = true ->
  split_comma (x +:+ String ","%char rest) = x :: split_comma rest.
Proof.
  unfold comma_free. induction x as [|c x IH]; intros H.
  - reflexivity.
  - cbn [string_existsb] in H. apply negb_true_iff, orb_false_elim in H as [Hc Hx].
    rewrite append_cons. cbn [split_comma]. rewrite Hc, IH; [reflexivity|].
    now apply negb_true_iff.
Qed.

Lemma split_comma_free (x : string) :
  comma_free x = true -> split_comma x = [x].
Proof.
  unfold comma_free. induction x as [|c x IH]; intros H.
  - reflexivity.
  - cbn [string_existsb] in H. apply negb_true_iff, orb_false_elim in H as [Hc Hx].
    cbn [split_comma]. rewrite Hc, IH; [reflexivity|].
    now apply negb_true_iff.
Qed.

Lemma split_join (l : list string) :
  l <> [] -> Forall (fun x => comma_free x = true) l ->
  split_comma (join "," l) = l.
Proof.
  induction l as [|x l IH]; intros Hne Hall; [congruence|].
  inversion Hall as [|? ? Hx Hl]; subst.
  destruct l as [|y l].
  - cbn [join]. now apply split_comma_free.
  - change (join "," (x :: y :: l)) with (x +:+ String ","%char (join "," (y :: l))).
    rewrite split_comma_app by assumption. f_equal. now apply IH.
Qed.

Lemma target_class_not_comma (c : ascii) :
  in_target_class c = true ->
  Ascii.eqb c ","%char = false /\ is_upper_az c = false /\ Ascii.eqb c DQUOTE = false.
Proof. destruct c as [[] [] [] [] [] [] [] []]; vm_compute; intros; repeat split; congruence. Qed.

Lemma identifier_parts (n : string) :
  is_identifier n = true ->
  nonempty n = true /\ string_forallb in_target_class n = true /\
  starts_with_digit n = false.
Proof.
  unfold is_identifier. intros H.
  apply andb_prop in H as [H Hd]. apply andb_prop in H as [Hn Hall].
  now apply negb_true_iff in Hd.
Qed.

Lemma identifier_comma_free (n : string) :
  is_identifier n = true -> comma_free n = true.
Proof.
  intros H. apply identifier_parts in H as (_ & Hall & _).
  unfold comma_free. apply negb_true_iff.
  induction n as [|c n IH]; [reflexivity|].
  cbn [string_forallb string_existsb] in *. apply andb_prop in Hall as [Hc Hn].
  destruct (target_class_not_comma c Hc) as (-> & _). now apply IH.
Qed.

Lemma sql_fold_identifier (n : string) :
  is_identifier n = true -> sql_fold n = n.
Proof.
  intros H. apply identifier_parts in H as (_ & Hall & _). unfold sql_fold.
  induction n as [|c n IH]; [reflexivity|].
  cbn [string_forallb string_map] in *. apply andb_prop in Hall as [Hc Hn].
  rewrite IH by assumption. unfold fold_char.
  destruct (target_class_not_comma c Hc) as (_ & -> & _). reflexivity.
Qed.

Lemma join_nonempty (l : list string) :
  l <> [] -> Forall (fun x => is_identifier x = true) l ->
  nonempty (join "," l) = true.
Proof.
  intros Hne Hall. destruct l as [|x l]; [congruence|].
  inversion Hall as [|? ? Hx _]; subst.
  apply identifier_parts in Hx as (Hx & _).
  destruct x as [|c x]; [discriminate|]. now destruct l.
Qed.

Lemma parse_join (l : list string) :
  Forall (fun x => is_identifier x = true) l ->
  parse_columns (join "," l) = l.
Proof.
  intros Hall. destruct l as [|x l]; [reflexivity|].
  unfold parse_columns. rewrite join_nonempty by (assumption || congruence).
  apply split_join; [congruence|].
  eapply Forall_impl; [exact Hall|]. intros y. apply identifier_comma_free.
Qed.

Lemma map_result_sanitize (l l' : list string) :
  map_result _sanitize_name l = Ok l' ->
  Forall (fun x => is_identifier x = true) l' /\ length l' = length l.
Proof.
  revert l'. induction l as [|x l IH]; intros l'; cbn [map_result].
  - intros [= <-]. split; [constructor | reflexivity].
  - destruct (_sanitize_name x) as [y|] eqn:Ex; [|discriminate]. cbn [rbind].
    destruct (map_result _sanitize_name l) as [r|]; [|discriminate]. cbn [rbind].
    intros [= <-]. destruct (IH r eq_refl) as [Hall Hlen].
    split; [constructor; [eapply sanitize_inv; eassumption | assumption]|].
    cbn. now rewrite Hlen.
Qed.

(** ** The manager's state *)

Lemma manager_eta (s : SpreadsheetManager) :
  Manager (conn s) (current_spreadsheet s) (files s) (refused s) = s.
Proof. now destruct s. Qed.



Lemma target_inv (spreadsheet : option string) (s : SpreadsheetManager) (t : string) :
  target spreadsheet s = Some t ->
  nonempty t = true /\ (spreadsheet = Some t \/ current_spreadsheet s = Some t).
Proof.
  unfold target. intros H.
  destruct spreadsheet as [u|]; [destruct (nonempty u) eqn:Eu|].
  - rewrite Eu in H. injection H as <-. auto.
  - destruct (current_spreadsheet s) as [u'|]; [|discriminate].
    destruct (nonempty u') eqn:Eu'; [|discriminate]. injection H as <-. auto.
  - destruct (current_spreadsheet s) as [u'|]; [|discriminate].
    destruct (nonempty u') eqn:Eu'; [|discriminate]. injection H as <-. auto.
Qed.

Lemma target_explicit (t : string) (s : SpreadsheetManager) :
  nonempty t = true -> target (Some t) s = Some t.
Proof. intros H. unfold target. now rewrite !H. Qed.

Lemma target_none (s : SpreadsheetManager) :
  current_spreadsheet s = None -> target None s = None.
Proof. intros H. unfold target. now rewrite H. Qed.

(** The registry's column list of a table, and the rows it stores. *)
Lemma get_columns_eq (t : string) (s : SpreadsheetManager) :
  nonempty t = true ->
  get_columns (Some t) s = (Ok (registry_columns s t), s).
Proof.
  intros H. unfold get_columns. rewrite target_explicit by assumption.
  unfold bind, execute, meta_select, ret, registry_columns.
  rewrite manager_eta. reflexivity.
Qed.

Lemma spreadsheet_exists_eq (t : string) (s : SpreadsheetManager) :
  _spreadsheet_exists t s = (Ok (bool_decide (is_Some (meta (conn s) !! t))), s).
Proof.
  unfold _spreadsheet_exists, bind, execute, meta_select, ret.
  now rewrite manager_eta.
Qed.

Lemma registry_columns_wf (s : SpreadsheetManager) (n : string) (t : table) :
  wf s -> tables (conn s) !! n = Some t -> registry_columns s n = tcolumns t.
Proof.
  intros Hwf Ht. destruct (wf_tables _ (wf_conn s Hwf) n t Ht) as (_ & _ & Hok & Hm).
  unfold registry_columns. rewrite Hm. apply parse_join, Hok.
Qed.

Lemma registry_columns_in (s : SpreadsheetManager) (n c : string) :
  wf s -> c ∈ registry_columns s n ->
  exists t, tables (conn s) !! n = Some t /\ registry_columns s n = tcolumns t /\
            is_identifier n = true /\ reserved n = false /\ table_ok t.
Proof.
  intros Hwf Hc. unfold registry_columns in Hc.
  destruct (meta (conn s) !! n) as [cols|] eqn:Em; [|now apply elem_of_nil in Hc].
  destruct (wf_meta _ (wf_conn s Hwf) n) as [t Ht]; [now rewrite Em|].
  exists t. destruct (wf_tables _ (wf_conn s Hwf) n t Ht) as (Hid & Hres & Hok & Hm).
  split; [exact Ht|]. split; [now apply registry_columns_wf|]. auto.
Qed.

Lemma find_table_wf (s : SpreadsheetManager) (n : string) (t : table) :
  wf s -> tables (conn s) !! n = Some t -> find_table (conn s) n = Ok t.
Proof.
  intros Hwf Ht. destruct (wf_tables _ (wf_conn s Hwf) n t Ht) as (Hid & _).
  unfold find_table. now rewrite sql_fold_identifier, Ht.
Qed.

(** ** The invariant under the changes the operations make *)

Lemma db_wf_empty : db_wf empty_database.
Proof.
  split; cbn; intros n; [intros t|..]; rewrite lookup_empty;
    [discriminate | intros [? [=]] | intros [? [=]]].
Qed.

(** A new table with its registry row. *)
Lemma db_wf_create (db : database) (n : string) (cols : list string) :
  db_wf db -> is_identifier n = true -> reserved n = false ->
  table_ok (Table cols []) ->
  db_wf (Database (<[n := Table cols []]> (tables db))
                  (<[n := join "," cols]> (meta db)) (sqlite_sequence db)).
Proof.
  intros Hwf Hid Hres Hok. split; cbn.
  - intros k t. rewrite !lookup_insert. case_decide as Hk.
    + subst k. intros [= <-]. auto.
    + apply (wf_tables _ Hwf).
  - intros k. rewrite !lookup_insert. case_decide; [intros _; eexists; reflexivity | apply (wf_meta _ Hwf)].
  - intros k Hk. rewrite lookup_insert. case_decide; [eexists; reflexivity | now apply (wf_sequence _ Hwf)].
Qed.

(** A table replaced by another, the registry row following its columns;
    the sequences may change for this table only. *)
Lemma db_wf_replace (db : database) (n : string) (t t' : table) (seq : gmap string Z) :
  db_wf db -> tables db !! n = Some t -> table_ok t' ->
  (forall k, k <> n -> seq !! k = sqlite_sequence db !! k) ->
  db_wf (Database (<[n := t']> (tables db))
                  (<[n := join "," (tcolumns t')]> (meta db)) seq).
Proof.
  intros Hwf Ht Hok Hseq.
  destruct (wf_tables _ Hwf n t Ht) as (Hid & Hres & _ & _). split; cbn.
  - intros k u. rewrite !lookup_insert. case_decide as Hk.
    + subst k. intros [= <-]. auto.
    + apply (wf_tables _ Hwf).
  - intros k. rewrite !lookup_insert. case_decide; [intros _; eexists; reflexivity | apply (wf_meta _ Hwf)].
  - intros k Hk. rewrite lookup_insert. case_decide as Hn; [eexists; reflexivity|].
    rewrite Hseq in Hk by congruence. now apply (wf_sequence _ Hwf).
Qed.

(** The rows of a table replaced, its columns kept. *)
Lemma db_wf_rows (db : database) (n : string) (t : table)
  (rs : list (Z * list value)) (seq : gmap string Z) :
  db_wf db -> tables db !! n = Some t -> table_ok (Table (tcolumns t) rs) ->
  (forall k, k <> n -> seq !! k = sqlite_sequence db !! k) ->
  db_wf (Database (<[n := Table (tcolumns t) rs]> (tables db)) (meta db) seq).
Proof.
  intros Hwf Ht Hok Hseq.
  destruct (wf_tables _ Hwf n t Ht) as (_ & _ & _ & Hm).
  rewrite <- (insert_id (meta db) n _ Hm).
  now apply (db_wf_replace db n t (Table (tcolumns t) rs)).
Qed.

(** A table dropped with its registry row and its sequence. *)
Lemma db_wf_drop (db : database) (n : string) :
  db_wf db ->
  db_wf (Database (delete n (tables db)) (delete n (meta db))
                  (delete n (sqlite_sequence db))).
Proof.
  intros Hwf. split; cbn.
  - intros k t. rewrite !lookup_delete.
    case_decide; [discriminate | apply (wf_tables _ Hwf)].
  - intros k. rewrite !lookup_delete.
    case_decide; [intros [? [=]] | apply (wf_meta _ Hwf)].
  - intros k. rewrite !lookup_delete.
    case_decide; [intros [? [=]] | apply (wf_sequence _ Hwf)].
Qed.

(** ** Rows in rowid order *)

Lemma max_rowid_bound (rs : list (Z * list value)) :
  0 <= max_rowid rs /\ Forall (fun r : Z * list value => fst r <= max_rowid rs) rs.
Proof.
  unfold max_rowid. induction rs as [|r rs [IH0 IH]]; cbn [map foldr].
  - split; [lia | constructor].
  - split; [lia|]. constructor; [lia|].
    eapply Forall_impl; [exact IH|]. cbn. intros; lia.
Qed.

Lemma btree_insert_last (i : Z) (vals : list value) (rs : list (Z * list value)) :
  Forall (fun r : Z * list value => fst r < i) rs ->
  btree_insert i vals rs = Ok (rs ++ [(i, vals)]).
Proof.
  induction rs as [|[j w] rs IH]; intros H; cbn [btree_insert]; [reflexivity|].
  inversion H as [|? ? Hj Hrs]; subst. cbn in Hj.
  destruct (i <? j) eqn:E1; [apply Z.ltb_lt in E1; lia|].
  destruct (i =? j) eqn:E2; [apply Z.eqb_eq in E2; lia|].
  now rewrite IH.
Qed.

Lemma sorted_snoc (ids : list Z) (i : Z) :
  StronglySorted Z.lt ids -> Forall (fun j => j < i) ids ->
  StronglySorted Z.lt (ids ++ [i]).
Proof.
  induction ids as [|j ids IH]; intros Hs Hall; cbn.
  - repeat constructor.
  - inversion Hs; subst. inversion Hall; subst.
    constructor; [now apply IH|].
    apply Forall_app. split; [assumption | now repeat constructor].
Qed.

Lemma sorted_app_inv (l1 l2 : list Z) :
  StronglySorted Z.lt (l1 ++ l2) ->
  forall i j, i ∈ l1 -> j ∈ l2 -> i < j.
Proof.
  induction l1 as [|x l1 IH]; cbn; intros Hs i j Hi Hj.
  - now apply elem_of_nil in Hi.
  - inversion Hs as [|? ? Hs' Hall]; subst.
    apply elem_of_cons in Hi as [->|Hi]; [|now apply IH].
    rewrite Forall_forall in Hall. apply Hall, elem_of_app. now right.
Qed.

(** Copying rows in rowid order into a table whose rows come before
    them appends them. *)
Lemma copy_in_order (l acc : list (Z * list value)) :
  StronglySorted Z.lt (map fst (acc ++ l)) ->
  foldl (fun a (r : Z * list value) => rbind a (btree_insert (fst r) (snd r)))
        (Ok acc) l = Ok (acc ++ l).
Proof.
  revert acc. induction l as [|r l IH]; intros acc Hs; cbn [foldl].
  - now rewrite app_nil_r.
  - cbn [rbind]. rewrite btree_insert_last.
    + replace (fst r, snd r) with r by now destruct r.
      rewrite IH; rewrite <- app_assoc; [reflexivity | exact Hs].
    + rewrite map_app in Hs. apply Forall_forall. intros q Hq.
      apply (sorted_app_inv _ _ Hs).
      * now apply list_elem_of_fmap_2.
      * cbn. apply elem_of_cons. now left.
Qed.

Lemma set_cell_length (cols : list string) (col : string) (v : value)
  (vals : list value) :
  length (set_cell cols col v vals) = length vals.
Proof.
  revert vals. induction cols as [|c cols IH]; intros [|w vals]; cbn; try reflexivity.
  case_decide; cbn; [reflexivity | now rewrite IH].
Qed.

Lemma sorted_filter (P : Z * list value -> Prop) `{forall r, Decision (P r)}
  (rs : list (Z * list value)) :
  StronglySorted Z.lt (map fst rs) ->
  StronglySorted Z.lt (map fst (filter P rs)).
Proof.
  induction rs as [|r rs IH]; intros Hs; [constructor|].
  cbn [map] in Hs. inversion Hs as [|? ? Hs' Hall]; subst.
  rewrite filter_cons. destruct (decide (P r)); [|now apply IH].
  cbn [map]. constructor; [now apply IH|].
  rewrite Forall_forall in *. intros j Hj. apply Hall.
  apply list_elem_of_fmap in Hj as (q & -> & Hq).
  apply list_elem_of_fmap. exists q. split; [reflexivity|].
  now apply list_elem_of_filter in Hq as [_ Hq].
Qed.


(** ** The invariant holds in every reachable state *)

Lemma identifier_not_reserved_fold (n : string) :
  is_identifier n = true -> forall db, name_taken db n = false ->
  reserved n = false /\ tables db !! n = None.
Proof.
  intros Hid db. unfold name_taken, reserved.
  rewrite (sql_fold_identifier n Hid). intros H.
  apply orb_false_elim in H as [H H3]. apply orb_false_elim in H as [H1 H2].
  rewrite H1, H2. split; [reflexivity|].
  apply bool_decide_eq_false in H3.
  destruct (tables db !! n); [exfalso; apply H3; eexists; reflexivity | reflexivity].
Qed.

Lemma fold_identifiers (l : list string) :
  Forall (fun c => is_identifier c = true) l -> map sql_fold l = l.
Proof.
  induction 1 as [|c l Hc _ IH]; [reflexivity|].
  cbn [map]. now rewrite IH, sql_fold_identifier.
Qed.

Lemma new_table_ok (cols : list string) :
  cols <> [] -> Forall (fun c => is_identifier c = true) cols ->
  NoDup (map sql_fold ("id" :: cols)) ->
  table_ok (Table cols []).
Proof.
  intros Hne Hall Hnd. cbn [map] in Hnd. rewrite fold_identifiers in Hnd by assumption.
  change (sql_fold "id") with "id" in Hnd. apply NoDup_cons in Hnd as [Hid Hnd].
  split; cbn; try assumption; constructor.
Qed.

Lemma create_spreadsheet_wf (name : string) (columns : list string)
  (s : SpreadsheetManager) :
  wf s -> wf (snd (create_spreadsheet name columns s)).
Proof.
  intros Hwf. unfold create_spreadsheet, bind, lift.
  destruct (_sanitize_name name) as [tn|] eqn:En; [|exact Hwf].
  rewrite spreadsheet_exists_eq.
  destruct (bool_decide (is_Some (meta (conn s) !! tn))) eqn:Ex; [exact Hwf|].
  destruct (map_result _sanitize_name columns) as [sc|] eqn:Ec; [|exact Hwf].
  apply bool_decide_eq_false in Ex.
  pose proof (sanitize_inv _ _ En) as Hid.
  destruct (map_result_sanitize _ _ Ec) as [Hsc _].
  unfold execute at 1. unfold create_table.
  destruct sc as [|c0 sc']; [exact Hwf|]. remember (c0 :: sc') as sc.
  destruct (name_taken (conn s) tn) eqn:Et; [exact Hwf|].
  destruct (identifier_not_reserved_fold tn Hid _ Et) as [Hres Hnone].
  destruct (bool_decide (NoDup (map sql_fold ("id" :: sc)))) eqn:End; [|exact Hwf].
  apply bool_decide_eq_true in End.
  rewrite (sql_fold_identifier tn Hid).
  unfold execute, meta_insert, set_current, ret. cbn [conn meta tables].
  destruct (meta (conn s) !! tn) as [x|] eqn:Em;
    [exfalso; apply Ex; eexists; reflexivity|].
  cbn. split; cbn.
  - apply db_wf_create; try assumption; [apply Hwf|].
    apply new_table_ok; subst; try assumption. congruence.
  - intros t [= <-]. rewrite lookup_insert_eq. eexists; reflexivity.
Qed.

Lemma next_rowid_above (db : database) (name : string) (t : table) (i : Z) :
  next_rowid db name t = Ok i ->
  Forall (fun r : Z * list value => fst r < i) (trows t) /\
  default 0 (sqlite_sequence db !! sql_fold name) < i /\ 0 < i.
Proof.
  unfold next_rowid. destruct (max_int64 <=? _); [discriminate|].
  intros [= <-]. destruct (max_rowid_bound (trows t)) as [H0 Hall].
  split; [|lia]. eapply Forall_impl; [exact Hall|]. cbn. intros; lia.
Qed.

Lemma wf_same_conn (s s' : SpreadsheetManager) :
  wf s -> conn s' = conn s -> current_spreadsheet s' = current_spreadsheet s ->
  wf s'.
Proof.
  intros [Hc Hcur] Hconn Hsel. split; rewrite Hconn; [assumption|].
  rewrite Hsel. assumption.
Qed.

(** The state after a statement that replaced the rows of one table. *)
Lemma wf_rows (s : SpreadsheetManager) (n : string) (t : table)
  (rs : list (Z * list value)) (seq : gmap string Z) :
  wf s -> tables (conn s) !! n = Some t -> table_ok (Table (tcolumns t) rs) ->
  (forall k, k <> n -> seq !! k = sqlite_sequence (conn s) !! k) ->
  wf (Manager (Database (<[n := Table (tcolumns t) rs]> (tables (conn s)))
                        (meta (conn s)) seq)
              (current_spreadsheet s) (files s) (refused s)).
Proof.
  intros [Hc Hcur] Ht Hok Hseq. split; cbn; [|assumption].
  now apply db_wf_rows.
Qed.

Lemma find_table_inv (db : database) (name : string) (t : table) :
  find_table db name = Ok t -> tables db !! sql_fold name = Some t.
Proof. unfold find_table. destruct (tables db !! sql_fold name); congruence. Qed.

Lemma table_ok_of (s : SpreadsheetManager) (n : string) (t : table) :
  wf s -> tables (conn s) !! n = Some t -> table_ok t.
Proof. intros Hwf Ht. now destruct (wf_tables _ (wf_conn s Hwf) n t Ht) as (_ & _ & ? & _). Qed.

Lemma add_row_wf (data : dict) (spreadsheet : option string) (s : SpreadsheetManager) :
  wf s -> wf (snd (add_row data spreadsheet s)).
Proof.
  intros Hwf. unfold add_row, with_target.
  destruct (target spreadsheet s) as [table|] eqn:Et; [|exact Hwf].
  destruct (target_inv _ _ _ Et) as [Hne _].
  unfold bind at 1. rewrite get_columns_eq by assumption.
  unfold bind, lift.
  destruct (sanitize_data _ data []) as [sd|]; [|exact Hwf].
  destruct sd as [|kv sd']; [exact Hwf|].
  unfold execute, insert_row.
  destruct (find_table (conn s) table) as [t|] eqn:Ef; [|exact Hwf].
  apply find_table_inv in Ef. cbn [rbind].
  destruct (negb (is_nil (kv :: sd')) && _); [|exact Hwf].
  destruct (next_rowid (conn s) table t) as [i|] eqn:Ei; [|exact Hwf].
  destruct (next_rowid_above _ _ _ _ Ei) as (Hlt & _ & _).
  cbn [rbind]. rewrite btree_insert_last by assumption. cbn [rbind ret snd].
  pose proof (table_ok_of _ _ _ Hwf Ef) as Hok.
  apply wf_rows with (t := t); try assumption.
  - destruct Hok. split; cbn [tcolumns trows]; try assumption.
    + apply Forall_app. split; [assumption|].
      constructor; [|constructor]. cbn. now rewrite length_map.
    + rewrite map_app. apply sorted_snoc; [assumption|].
      apply Forall_forall. intros j Hj.
      apply list_elem_of_fmap in Hj as (q & -> & Hq).
      rewrite Forall_forall in Hlt. now apply Hlt.
  - intros k Hk. now rewrite lookup_insert_ne.
Qed.

Lemma add_column_state (column_name : string) (default_value : value)
  (spreadsheet : option string) (s : SpreadsheetManager) :
  snd (add_column column_name default_value spreadsheet s) = s.
Proof.
  unfold add_column, with_target.
  destruct (target spreadsheet s) as [table|] eqn:Et; [|reflexivity].
  destruct (target_inv _ _ _ Et) as [Hne _].
  unfold bind at 1, lift. destruct (_sanitize_name column_name); [|reflexivity].
  unfold bind at 1. rewrite get_columns_eq by assumption.
  destruct (bool_decide _); reflexivity.
Qed.

Lemma get_data_state (spreadsheet : option string) (s : SpreadsheetManager) :
  snd (get_data spreadsheet s) = s.
Proof.
  unfold get_data.
  destruct (target spreadsheet s) as [table|] eqn:Et; [|reflexivity].
  destruct (target_inv _ _ _ Et) as [Hne _].
  unfold bind at 1. rewrite get_columns_eq by assumption.
  unfold bind, execute, select_all_order_by_id.
  destruct (find_table (conn s) table); cbn; [apply manager_eta | reflexivity].
Qed.

Lemma update_keeps_ids (row_id : Z) (f : list value -> list value)
  (rs : list (Z * list value)) :
  map fst (map (fun r : Z * list value =>
                  if fst r =? row_id then (fst r, f (snd r)) else r) rs)
  = map fst rs.
Proof.
  induction rs as [|r rs IH]; [reflexivity|]. cbn [map]. rewrite IH.
  now destruct (fst r =? row_id).
Qed.

Lemma edit_cell_wf (row_id : Z) (column : string) (v : value)
  (spreadsheet : option string) (s : SpreadsheetManager) :
  wf s -> wf (snd (edit_cell row_id column v spreadsheet s)).
Proof.
  intros Hwf. unfold edit_cell, with_target.
  destruct (target spreadsheet s) as [table|] eqn:Et; [|exact Hwf].
  destruct (target_inv _ _ _ Et) as [Hne _].
  unfold bind at 1, lift. destruct (_sanitize_name column) as [c|]; [|exact Hwf].
  unfold bind at 1. rewrite get_columns_eq by assumption.
  destruct (bool_decide (c ∈ registry_columns s table)); [|exact Hwf].
  unfold bind, execute, update_cell.
  destruct (find_table (conn s) table) as [t|] eqn:Ef; [|exact Hwf].
  apply find_table_inv in Ef. cbn [rbind].
  destruct (bool_decide (c ∈ tcolumns t)); [|exact Hwf].
  assert (Hgoal : wf (Manager
    (Database (<[sql_fold table :=
                  Table (tcolumns t)
                    (map (fun r : Z * list value =>
                            if fst r =? row_id
                            then (fst r, set_cell (tcolumns t) c (text_affinity v) (snd r))
                            else r) (trows t))]>
                 (tables (conn s))) (meta (conn s)) (sqlite_sequence (conn s)))
    (current_spreadsheet s) (files s) (refused s))).
  { apply wf_rows with (t := t); try assumption; [|auto].
    pose proof (table_ok_of _ _ _ Hwf Ef) as Hok. destruct Hok as [? ? ? ? Hw ?].
    split; cbn [tcolumns trows]; try assumption.
    - apply Forall_forall. intros q Hq.
      apply list_elem_of_fmap in Hq as (r & -> & Hr).
      rewrite Forall_forall in Hw. specialize (Hw r Hr).
      destruct (fst r =? row_id); cbn [snd]; [now rewrite set_cell_length | assumption].
    - now rewrite update_keeps_ids. }
  destruct (_ =? 0); exact Hgoal.
Qed.

Lemma delete_row_wf (row_id : Z) (spreadsheet : option string)
  (s : SpreadsheetManager) :
  wf s -> wf (snd (delete_row row_id spreadsheet s)).
Proof.
  intros Hwf. unfold delete_row, with_target.
  destruct (target spreadsheet s) as [table|] eqn:Et; [|exact Hwf].
  unfold bind, execute, delete_from.
  destruct (find_table (conn s) table) as [t|] eqn:Ef; [|exact Hwf].
  apply find_table_inv in Ef. cbn [rbind].
  assert (Hgoal : wf (Manager
    (Database (<[sql_fold table :=
                  Table (tcolumns t)
                        (filter (fun r : Z * list value => fst r ≠ row_id) (trows t))]>
                 (tables (conn s))) (meta (conn s)) (sqlite_sequence (conn s)))
    (current_spreadsheet s) (files s) (refused s))).
  { apply wf_rows with (t := t); try assumption; [|auto].
    pose proof (table_ok_of _ _ _ Hwf Ef) as Hok. destruct Hok.
    split; cbn [tcolumns trows]; try assumption.
    - rewrite Forall_forall in *. intros r Hr.
      apply list_elem_of_filter in Hr as [_ Hr]. auto.
    - now apply sorted_filter. }
  destruct (_ =? 0); exact Hgoal.
Qed.

Lemma switch_spreadsheet_wf (name : string) (s : SpreadsheetManager) :
  wf s -> wf (snd (switch_spreadsheet name s)).
Proof.
  intros Hwf. unfold switch_spreadsheet, bind, lift.
  destruct (_sanitize_name name) as [table|]; [|exact Hwf].
  rewrite spreadsheet_exists_eq.
  destruct (bool_decide (is_Some (meta (conn s) !! table))) eqn:Ex; [|exact Hwf].
  apply bool_decide_eq_true in Ex. unfold set_current, ret. cbn.
  split; cbn; [apply Hwf|]. now intros t [= <-].
Qed.

(** What [delete_spreadsheet] does to a registered spreadsheet. *)
Lemma delete_spreadsheet_registered (name table : string) (s : SpreadsheetManager) :
  wf s -> _sanitize_name name = Ok table -> is_Some (meta (conn s) !! table) ->
  delete_spreadsheet name s =
  (Ok (Done ("Deleted spreadsheet '" +:+ name +:+ "'")),
   Manager (Database (delete table (tables (conn s)))
                     (delete table (meta (conn s)))
                     (delete table (sqlite_sequence (conn s))))
           (if bool_decide (current_spreadsheet s = Some table)
            then None else current_spreadsheet s)
           (files s) (refused s)).
Proof.
  intros Hwf En Hreg. unfold delete_spreadsheet, bind, lift. rewrite En.
  rewrite spreadsheet_exists_eq, bool_decide_eq_true_2 by assumption.
  destruct (wf_meta _ (wf_conn s Hwf) table Hreg) as [t Ht].
  pose proof (sanitize_inv _ _ En) as Hid.
  unfold execute at 1. unfold drop_table_if_exists, drop_table, find_table.
  rewrite (sql_fold_identifier table Hid), Ht. cbn [rbind].
  unfold execute, meta_delete, set_current, ret. cbn.
  destruct (bool_decide (current_spreadsheet s = Some table)); reflexivity.
Qed.

Lemma delete_spreadsheet_wf (name : string) (s : SpreadsheetManager) :
  wf s -> wf (snd (delete_spreadsheet name s)).
Proof.
  intros Hwf.
  destruct (_sanitize_name name) as [table|] eqn:En.
  - destruct (decide (is_Some (meta (conn s) !! table))) as [Hreg|Hreg].
    + rewrite (delete_spreadsheet_registered name table s) by assumption.
      cbn [snd]. split; cbn.
      * apply db_wf_drop, Hwf.
      * intros t. case_bool_decide as Hc; [discriminate|].
        intros Ht. rewrite lookup_delete_ne by congruence.
        now apply (wf_current s Hwf).
    + unfold delete_spreadsheet, bind, lift. rewrite En.
      rewrite spreadsheet_exists_eq, bool_decide_eq_false_2 by assumption.
      exact Hwf.
  - unfold delete_spreadsheet, bind, lift. rewrite En. exact Hwf.
Qed.

(** Writing files leaves the connection and the selection alone. *)
Lemma writerows_frame (path : string) (fieldnames : list string) (rows : list dict)
  (s : SpreadsheetManager) :
  conn (snd (writerows path fieldnames rows s)) = conn s /\
  current_spreadsheet (snd (writerows path fieldnames rows s)) = current_spreadsheet s /\
  refused (snd (writerows path fieldnames rows s)) = refused s.
Proof.
  revert s. induction rows as [|row rows IH]; intros s; cbn [writerows].
  - now unfold ret.
  - unfold bind, lift. destruct (dict_to_list fieldnames row); [|now cbn].
    unfold write. cbv beta iota.
    match goal with |- context [writerows _ _ _ ?s1] =>
      destruct (IH s1) as (-> & -> & ->) end.
    now cbn.
Qed.

Lemma export_csv_frame (path spreadsheet : option string) (s : SpreadsheetManager) :
  conn (snd (export_csv path spreadsheet s)) = conn s /\
  current_spreadsheet (snd (export_csv path spreadsheet s)) = current_spreadsheet s.
Proof.
  destruct (export_csv path spreadsheet s) as [r s'] eqn:E. cbn [snd].
  revert E. unfold export_csv, with_target.
  destruct (target spreadsheet s) as [table|] eqn:Et; [|now intros [= _ <-]].
  unfold bind at 1.
  pose proof (get_data_state (Some table) s) as Hs.
  destruct (get_data (Some table) s) as [[data|e] s1]; cbn [snd] in Hs; subst s1;
    [|now intros [= _ <-]].
  destruct data; try (now intros [= _ <-]).
  unfold bind, open_w, write.
  destruct (bool_decide _); [now intros [= _ <-]|]. cbv beta iota.
  match goal with |- context [writerows ?p _ _ ?s1] =>
    destruct (writerows_frame p columns rows s1) as (H1 & H2 & _);
    destruct (writerows p columns rows s1) as [[[]|e] s2]
  end; cbn [snd] in *; unfold ret; intros [= _ <-]; rewrite H1, H2; now cbn.
Qed.

Lemma export_csv_wf (path spreadsheet : option string) (s : SpreadsheetManager) :
  wf s -> wf (snd (export_csv path spreadsheet s)).
Proof.
  intros Hwf. destruct (export_csv_frame path spreadsheet s) as [H1 H2].
  now apply (wf_same_conn s).
Qed.

(** ** Rebuilding a table without one column *)

Lemma filter_absent (c : string) (l : list string) :
  c ∉ l -> filter (fun y => y ≠ c) l = l.
Proof.
  induction l as [|y l IH]; intros Hc; [reflexivity|].
  apply not_elem_of_cons in Hc as [Hy Hl].
  rewrite filter_cons_True by congruence. now rewrite IH.
Qed.

Lemma list_remove_filter (c : string) (l : list string) :
  NoDup l -> list_remove c l = filter (fun y => y ≠ c) l.
Proof.
  induction 1 as [|y l Hy Hnd IH]; [reflexivity|].
  cbn [list_remove]. case_decide as E.
  - subst y. rewrite filter_cons_False by tauto. now rewrite filter_absent.
  - rewrite filter_cons_True by assumption. now rewrite IH.
Qed.

Lemma temp_name (table : string) :
  "_temp_" +:+ table =
  String "_" (String "t" (String "e" (String "m" (String "p" (String "_" table))))).
Proof. reflexivity. Qed.

Lemma temp_identifier (table : string) :
  is_identifier table = true -> is_identifier ("_temp_" +:+ table) = true.
Proof.
  intros H. apply identifier_parts in H as (_ & Hall & _).
  rewrite temp_name. unfold is_identifier.
  cbn [nonempty string_forallb starts_with_digit]. now rewrite Hall.
Qed.

Lemma temp_not_reserved (table : string) : reserved ("_temp_" +:+ table) = false.
Proof.
  rewrite temp_name. unfold reserved, meta_table_name.
  cbn [is_prefix]. cbn [Ascii.eqb Bool.eqb andb orb].
  apply bool_decide_eq_false. intros [= ->].
Qed.

Lemma copy_row_ids (src dst : table) (cols : list string)
  (rs : list (Z * list value)) :
  map fst (map (copy_row src dst cols) rs) = map fst rs.
Proof. induction rs as [|r rs IH]; [reflexivity|]. cbn [map]. now rewrite IH. Qed.

Lemma reserved_not_taken (db : database) (n : string) :
  is_identifier n = true -> reserved n = false -> tables db !! n = None ->
  name_taken db n = false.
Proof.
  intros Hid Hres Hn. unfold name_taken, reserved in *.
  rewrite (sql_fold_identifier n Hid). apply orb_false_elim in Hres as [-> ->].
  rewrite Hn. reflexivity.
Qed.

(** The table [delete_column] leaves in place of [t]. *)
Lemma rebuilt_ok (t : table) (c : string) :
  table_ok t -> list_remove c (tcolumns t) <> [] ->
  table_ok (rebuilt t c).
Proof.
  intros [Hne Hid Hnd Hno Hw Hs] Hne'. unfold rebuilt.
  rewrite list_remove_filter in * by assumption.
  split; cbn [tcolumns trows].
  - assumption.
  - rewrite Forall_forall in *. intros x Hx.
    apply list_elem_of_filter in Hx as [_ Hx]. auto.
  - now apply NoDup_filter.
  - intros Hx. apply list_elem_of_filter in Hx as [_ Hx]. auto.
  - apply Forall_forall. intros q Hq.
    apply list_elem_of_fmap in Hq as (r & -> & _). cbn. now rewrite length_map.
  - now rewrite copy_row_ids.
Qed.

(** The five statements of the rebuild, one after the other. *)
Lemma rebuild_statements (db : database) (tn c : string) (t : table) :
  db_wf db -> tables db !! tn = Some t ->
  list_remove c (tcolumns t) <> [] ->
  name_taken db ("_temp_" +:+ tn) = false ->
  exists db1 db2 db3 db4,
    create_table ("_temp_" +:+ tn) (list_remove c (tcolumns t)) db = Ok (tt, db1) /\
    insert_select ("_temp_" +:+ tn) tn (list_remove c (tcolumns t)) db1
      = Ok (tt, db2) /\
    drop_table tn db2 = Ok (tt, db3) /\
    rename_table ("_temp_" +:+ tn) tn db3 = Ok (tt, db4) /\
    meta_update (join "," (list_remove c (tcolumns t))) tn db4 =
    Ok (tt, Database (<[tn := rebuilt t c]> (tables db))
                     (<[tn := join "," (list_remove c (tcolumns t))]> (meta db))
                     (<[tn := max_rowid (trows t)]> (sqlite_sequence db))).
Proof.
  intros Hwf Ht Hne Htaken.
  destruct (wf_tables _ Hwf tn t Ht) as (Hid & Hres & Hok & Hm).
  pose proof (temp_identifier tn Hid) as Htid.
  destruct (identifier_not_reserved_fold _ Htid db Htaken) as [_ Htemp].
  assert (Hneq : "_temp_" +:+ tn <> tn) by congruence.
  pose proof (rebuilt_ok t c Hok Hne) as Hok'.
  set (temp := "_temp_" +:+ tn) in *.
  set (columns := list_remove c (tcolumns t)) in *.
  assert (Hseq : sqlite_sequence db !! temp = None).
  { destruct (sqlite_sequence db !! temp) eqn:E; [|reflexivity].
    destruct (wf_sequence _ Hwf temp) as [x Hx]; [now rewrite E | congruence]. }
  eexists _, _, _, _. split; [|split; [|split; [|split]]].
  - unfold create_table. destruct columns eqn:Ec; [congruence|]. rewrite <- Ec.
    rewrite Htaken, (sql_fold_identifier temp Htid).
    rewrite bool_decide_eq_true_2; [reflexivity|].
    destruct Hok' as [_ Hids Hnd Hno _ _]. unfold rebuilt in *. cbn [tcolumns] in *.
    fold columns in Hids, Hnd, Hno. cbn [map]. rewrite fold_identifiers by assumption.
    change (sql_fold "id") with "id". now apply NoDup_cons.
  - unfold insert_select. destruct columns eqn:Ec; [congruence|]. rewrite <- Ec.
    unfold find_table. cbn [tables].
    rewrite (sql_fold_identifier temp Htid), (sql_fold_identifier tn Hid).
    rewrite lookup_insert_ne, Ht, lookup_insert_eq by assumption. cbn [rbind tcolumns trows].
    rewrite (proj2 (forallb_forall _ _)).
    + rewrite (copy_in_order _ []).
      * cbn [rbind app]. reflexivity.
      * cbn [app]. rewrite copy_row_ids. apply Hok.
    + intros x Hx. apply list_elem_of_In in Hx.
      rewrite !bool_decide_eq_true_2; [reflexivity | assumption |].
      unfold columns in Hx. rewrite list_remove_filter in Hx by apply Hok.
      now apply list_elem_of_filter in Hx as [_ Hx].
  - unfold drop_table, find_table. cbn [tables].
    rewrite (sql_fold_identifier tn Hid).
    rewrite !lookup_insert_ne, Ht by assumption. cbn [rbind]. reflexivity.
  - unfold rename_table, find_table. cbn [tables sqlite_sequence].
    rewrite (sql_fold_identifier temp Htid), (sql_fold_identifier tn Hid).
    rewrite lookup_delete_ne, lookup_insert_eq by congruence. cbn [rbind].
    rewrite reserved_not_taken; [|assumption..|cbn [tables]; apply lookup_delete_eq].
    rewrite lookup_delete_ne, lookup_insert_eq by congruence. reflexivity.
  - unfold meta_update. cbn [meta tables sqlite_sequence]. rewrite Hm. f_equal. f_equal.
    rewrite Hseq. cbn [default]. f_equal.
    + apply map_eq. intros k. unfold rebuilt. fold columns.
      destruct (decide (k = tn)) as [->|Hk1]; [now rewrite !lookup_insert_eq|].
      rewrite !lookup_insert_ne by congruence.
      destruct (decide (k = temp)) as [->|Hk2].
      * now rewrite lookup_delete_eq.
      * now rewrite !lookup_delete_ne, !lookup_insert_ne by congruence.
    + destruct (max_rowid_bound (trows t)) as [H0 _].
      rewrite Z.max_r by assumption.
      apply map_eq. intros k.
      destruct (decide (k = tn)) as [->|Hk1]; [now rewrite !lookup_insert_eq|].
      rewrite !lookup_insert_ne by congruence.
      destruct (decide (k = temp)) as [->|Hk2].
      * now rewrite lookup_delete_eq.
      * now rewrite !lookup_delete_ne, !lookup_insert_ne by congruence.
Qed.

Lemma execute_ok {A} (q : database -> result (A * database)) (s : SpreadsheetManager)
  (a : A) (db : database) :
  q (conn s) = Ok (a, db) ->
  execute q s = (Ok a, Manager db (current_spreadsheet s) (files s) (refused s)).
Proof. intros H. unfold execute. now rewrite H. Qed.

Lemma execute_raise {A} (q : database -> result (A * database))
  (s : SpreadsheetManager) (e : exn) :
  q (conn s) = Raise e -> execute q s = (Raise e, s).
Proof. intros H. unfold execute. now rewrite H. Qed.

Lemma execute_at {A} (q : database -> result (A * database)) (db db' : database)
  (cur : option string) (fs : gmap string string) (ro : gset string) (a : A) :
  q db = Ok (a, db') ->
  execute q (Manager db cur fs ro) = (Ok a, Manager db' cur fs ro).
Proof. intros H. unfold execute. cbn. now rewrite H. Qed.

(** [delete_column] up to the rebuild: the column is looked up in the
    registry's list. *)
Lemma delete_column_unfold (column_name : string) (spreadsheet : option string)
  (s : SpreadsheetManager) (tn c : string) :
  target spreadsheet s = Some tn -> _sanitize_name column_name = Ok c ->
  delete_column column_name spreadsheet s =
  if bool_decide (c ∈ registry_columns s tn) then
    (execute (create_table ("_temp_" +:+ tn) (list_remove c (registry_columns s tn))) ;;;
     execute (insert_select ("_temp_" +:+ tn) tn (list_remove c (registry_columns s tn))) ;;;
     execute (drop_table tn) ;;;
     execute (rename_table ("_temp_" +:+ tn) tn) ;;;
     execute (meta_update (join "," (list_remove c (registry_columns s tn))) tn) ;;;
     ret (Done ("Deleted column '" +:+ column_name +:+ "'"))) s
  else (Ok (Failure ("Column '" +:+ column_name +:+ "' not found")), s).
Proof.
  intros Et En. unfold delete_column, with_target. rewrite Et.
  destruct (target_inv _ _ _ Et) as [Hne _].
  unfold bind at 1, lift. rewrite En.
  unfold bind at 1. rewrite get_columns_eq by assumption.
  now destruct (bool_decide _).
Qed.

(** C1, the part the code keeps. In a reachable state, deleting a column
    that is present, when another column remains and no table bears the
    shadow table's name, succeeds and leaves the rebuilt table, the new
    registry list and the sequence reset to the largest surviving id. *)
Lemma delete_column_rebuilds (column_name : string) (spreadsheet : option string)
  (s : SpreadsheetManager) (tn c : string) (t : table) :
  wf s -> target spreadsheet s = Some tn -> _sanitize_name column_name = Ok c ->
  tables (conn s) !! tn = Some t -> c ∈ tcolumns t ->
  list_remove c (tcolumns t) <> [] ->
  name_taken (conn s) ("_temp_" +:+ tn) = false ->
  delete_column column_name spreadsheet s =
  (Ok (Done ("Deleted column '" +:+ column_name +:+ "'")),
   Manager (Database (<[tn := rebuilt t c]> (tables (conn s)))
                     (<[tn := join "," (list_remove c (tcolumns t))]> (meta (conn s)))
                     (<[tn := max_rowid (trows t)]> (sqlite_sequence (conn s))))
           (current_spreadsheet s) (files s) (refused s)).
Proof.
  intros Hwf Et En Ht Hc Hne Htaken.
  rewrite (delete_column_unfold _ _ _ tn c Et En).
  rewrite (registry_columns_wf s tn t Hwf Ht).
  rewrite bool_decide_eq_true_2 by assumption.
  destruct (rebuild_statements _ tn c t (wf_conn s Hwf) Ht Hne Htaken)
    as (db1 & db2 & db3 & db4 & E1 & E2 & E3 & E4 & E5).
  unfold bind.
  rewrite (execute_ok _ s tt db1 E1). cbv beta iota.
  rewrite (execute_at _ _ _ _ _ _ _ E2). cbv beta iota.
  rewrite (execute_at _ _ _ _ _ _ _ E3). cbv beta iota.
  rewrite (execute_at _ _ _ _ _ _ _ E4). cbv beta iota.
  rewrite (execute_at _ _ _ _ _ _ _ E5). reflexivity.
Qed.

(** Where the rebuild cannot start, [CREATE TABLE] raises and nothing
    has changed. *)
Lemma delete_column_raises (column_name : string) (spreadsheet : option string)
  (s : SpreadsheetManager) (tn c : string) (t : table) :
  wf s -> target spreadsheet s = Some tn -> _sanitize_name column_name = Ok c ->
  tables (conn s) !! tn = Some t -> c ∈ tcolumns t ->
  list_remove c (tcolumns t) = [] \/ name_taken (conn s) ("_temp_" +:+ tn) = true ->
  delete_column column_name spreadsheet s = (Raise OperationalError, s).
Proof.
  intros Hwf Et En Ht Hc Hcase.
  rewrite (delete_column_unfold _ _ _ tn c Et En).
  rewrite (registry_columns_wf s tn t Hwf Ht).
  rewrite bool_decide_eq_true_2 by assumption.
  unfold bind. rewrite (execute_raise _ s OperationalError); [reflexivity|].
  unfold create_table. destruct Hcase as [-> | ->]; [reflexivity|].
  now destruct (list_remove c (tcolumns t)).
Qed.

Lemma delete_column_wf (column_name : string) (spreadsheet : option string)
  (s : SpreadsheetManager) :
  wf s -> wf (snd (delete_column column_name spreadsheet s)).
Proof.
  intros Hwf.
  destruct (target spreadsheet s) as [tn|] eqn:Et;
    [|unfold delete_column, with_target; rewrite Et; exact Hwf].
  destruct (_sanitize_name column_name) as [c|] eqn:En;
    [|unfold delete_column, with_target, bind, lift; rewrite Et, En; exact Hwf].
  destruct (decide (c ∈ registry_columns s tn)) as [Hc|Hc].
  - destruct (registry_columns_in s tn c Hwf Hc) as (t & Ht & Hcols & _ & _ & Hok).
    rewrite Hcols in Hc.
    destruct (decide (list_remove c (tcolumns t) = [])) as [He|He];
      [rewrite (delete_column_raises _ _ s tn c t) by auto; exact Hwf|].
    destruct (name_taken (conn s) ("_temp_" +:+ tn)) eqn:Htk;
      [rewrite (delete_column_raises _ _ s tn c t) by auto; exact Hwf|].
    rewrite (delete_column_rebuilds _ _ s tn c t) by assumption. cbn [snd].
    split; cbn.
    + apply (db_wf_replace _ tn t (rebuilt t c)); try assumption; [apply Hwf | |].
      * now apply rebuilt_ok.
      * intros k Hk. now rewrite lookup_insert_ne.
    + intros u Hu. rewrite lookup_insert. case_decide; [eexists; reflexivity|].
      now apply (wf_current s Hwf).
  - rewrite (delete_column_unfold _ _ _ tn c Et En).
    rewrite bool_decide_eq_false_2 by assumption. exact Hwf.
Qed.

Lemma perform_wf (c : call) (s : SpreadsheetManager) :
  wf s -> wf (snd (perform c s)).
Proof.
  intros Hwf. destruct c; cbn [perform].
  - now apply create_spreadsheet_wf.
  - now apply add_row_wf.
  - now rewrite add_column_state.
  - now apply edit_cell_wf.
  - now apply delete_row_wf.
  - now apply delete_column_wf.
  - now rewrite get_data_state.
  - now apply switch_spreadsheet_wf.
  - now apply export_csv_wf.
  - now apply delete_spreadsheet_wf.
Qed.

(** The data model's invariant holds after every sequence of calls. *)
Lemma reachable_wf (s : SpreadsheetManager) : reachable s -> wf s.
Proof.
  induction 1 as [fs ro | s c _ IH _ | s fs ro _ IH | s t _ IH Ht].
  - split; cbn; [apply db_wf_empty | discriminate].
  - now apply perform_wf.
  - split; cbn; [apply IH | discriminate].
  - split; cbn; [apply IH | now intros ? [= <-]].
Qed.

Lemma run_reachable (cs : list call) (s : SpreadsheetManager) :
  reachable s -> forallb plain_target cs = true -> reachable (snd (run cs s)).
Proof.
  revert s. induction cs as [|c cs IH]; intros s Hs Hp; [exact Hs|].
  cbn [forallb] in Hp. apply andb_prop in Hp as [Hc Hcs].
  cbn [run]. pose proof (reachable_step s c Hs Hc) as H1.
  destruct (perform c s) as [r s1]. cbn [snd] in H1.
  specialize (IH s1 H1 Hcs). destruct (run cs s1) as [rs s2]. exact IH.
Qed.

Lemma after_reachable (cs : list call) :
  forallb plain_target cs = true -> reachable (after cs).
Proof. apply run_reachable, reachable_init. Qed.

(** ** [edit_cell] (C7) *)

Lemma stored_rows_wf (s : SpreadsheetManager) (n : string) (t : table) :
  wf s -> tables (conn s) !! n = Some t -> stored_rows s n = trows t.
Proof.
  intros Hwf Ht. destruct (wf_tables _ (wf_conn s Hwf) n t Ht) as (Hid & _).
  unfold stored_rows. now rewrite sql_fold_identifier, Ht.
Qed.


Lemma demo_reachable : reachable demo.
Proof. apply after_reachable. reflexivity. Qed.


(** ** [delete_spreadsheet] (C8) *)

Lemma no_selection_failure (c : call) (s : SpreadsheetManager) :
  takes_target c = true -> explicit_target c = None ->
  current_spreadsheet s = None ->
  exists r, perform c s = (Ok r, s) /\ success r = false /\
            error r = Some no_selection.
Proof.
  intros Hc He Hcur.
  destruct c; try discriminate; cbn [explicit_target] in He; subst;
    cbn [perform];
    unfold add_row, add_column, edit_cell, delete_row, delete_column, get_data,
           export_csv, with_target;
    rewrite (target_none s Hcur); eexists; repeat split.
Qed.

(** C8. Deleting a registered spreadsheet succeeds; afterwards its
    physical table and its registry row are gone and the others are as
    they were; the selection is cleared when it was this spreadsheet,
    after which every operation called without a target returns the
    no-spreadsheet-selected failure, and is kept otherwise. *)
Theorem delete_spreadsheet_effect (s : SpreadsheetManager) (name tn : string) :
  reachable s ->
  _sanitize_name name = Ok tn ->
  is_Some (meta (conn s) !! tn) ->
  exists s',
    delete_spreadsheet name s =
      (Ok (Done ("Deleted spreadsheet '" +:+ name +:+ "'")), s') /\
    tables (conn s') !! tn = None /\
    meta (conn s') !! tn = None /\
    (forall n, n <> tn ->
       tables (conn s') !! n = tables (conn s) !! n /\
       meta (conn s') !! n = meta (conn s) !! n) /\
    (current_spreadsheet s = Some tn ->
       current_spreadsheet s' = None /\
       forall c, takes_target c = true -> explicit_target c = None ->
         exists r, perform c s' = (Ok r, s') /\ success r = false /\
                   error r = Some no_selection) /\
    (current_spreadsheet s <> Some tn ->
       current_spreadsheet s' = current_spreadsheet s).
Proof.
  intros Hreach En Hreg. apply reachable_wf in Hreach as Hwf.
  eexists. split; [exact (delete_spreadsheet_registered name tn s Hwf En Hreg)|].
  cbn [conn tables meta current_spreadsheet].
  split; [apply lookup_delete_eq|]. split; [apply lookup_delete_eq|].
  split; [|split].
  - intros n Hn. now rewrite !lookup_delete_ne by congruence.
  - intros Hcur. rewrite bool_decide_eq_true_2 by assumption.
    split; [reflexivity|]. intros c Hc He. now apply no_selection_failure.
  - intros Hcur. now rewrite bool_decide_eq_false_2.
Qed.

Lemma delete_spreadsheet_effect_witness :
  reachable demo /\ _sanitize_name "EXPENSES " = Ok "expenses" /\
  is_Some (meta (conn demo) !! "expenses") /\
  exists s',
    delete_spreadsheet "EXPENSES " demo =
      (Ok (Done ("Deleted spreadsheet '" +:+ "EXPENSES " +:+ "'")), s') /\
    tables (conn s') !! "expenses" = None /\
    meta (conn s') !! "expenses" = None /\
    (forall n, n <> "expenses" ->
       tables (conn s') !! n = tables (conn demo) !! n /\
       meta (conn s') !! n = meta (conn demo) !! n) /\
    (current_spreadsheet demo = Some "expenses" ->
       current_spreadsheet s' = None /\
       forall c, takes_target c = true -> explicit_target c = None ->
         exists r, perform c s' = (Ok r, s') /\ success r = false /\
                   error r = Some no_selection) /\
    (current_spreadsheet demo <> Some "expenses" ->
       current_spreadsheet s' = current_spreadsheet demo).
Proof.
  split; [exact demo_reachable|].
  split; [vm_compute; reflexivity|].
  split; [vm_compute; eexists; reflexivity|].
  apply (delete_spreadsheet_effect demo "EXPENSES " "expenses");
    [exact demo_reachable | vm_compute; reflexivity | vm_compute; eexists; reflexivity].
Defined.

(** ** [create_spreadsheet] on a registered name (C4) *)

(** C4, as the code has it. When the sanitized name is already
    registered, [create_spreadsheet] fails with an already-exists error
    whose message names the name as the caller gave it, and changes
    nothing. *)
Theorem create_spreadsheet_exists (s : SpreadsheetManager) (name tn : string)
  (columns : list string) :
  _sanitize_name name = Ok tn ->
  is_Some (meta (conn s) !! tn) ->
  create_spreadsheet name columns s =
  (Ok (Failure ("Spreadsheet '" +:+ name +:+ "' already exists")), s).
Proof.
  intros En Hreg. unfold create_spreadsheet, bind, lift. rewrite En.
  now rewrite spreadsheet_exists_eq, bool_decide_eq_true_2.
Qed.

Lemma create_spreadsheet_exists_witness :
  _sanitize_name "EXPENSES!" = Ok "expenses_" /\
  is_Some (meta (conn (after [CreateSpreadsheet "Expenses?" ["item"]])) !! "expenses_") /\
  create_spreadsheet "EXPENSES!" ["a"] (after [CreateSpreadsheet "Expenses?" ["item"]]) =
  (Ok (Failure "Spreadsheet 'EXPENSES!' already exists"),
   after [CreateSpreadsheet "Expenses?" ["item"]]).
Proof.
  split; [vm_compute; reflexivity|].
  split; [vm_compute; eexists; reflexivity|].
  apply (create_spreadsheet_exists _ "EXPENSES!" "expenses_");
    [vm_compute; reflexivity | vm_compute; eexists; reflexivity].
Defined.

(** C4 as stated fails: two names collide on [expenses_], and the error
    of the second call does not name that canonical form. *)
Lemma create_spreadsheet_names_original :
  _sanitize_name "Expenses?" = Ok "expenses_" /\
  _sanitize_name "EXPENSES!" = Ok "expenses_" /\
  fst (create_spreadsheet "EXPENSES!" ["a"]
         (after [CreateSpreadsheet "Expenses?" ["item"]]))
  <> Ok (Failure "Spreadsheet 'expenses_' already exists").
Proof. vm_compute. repeat split. discriminate. Qed.

(** ** [delete_column] (C1) *)

Lemma dict_get_zip_map (f : string -> value) (l : list string) (k : string) :
  k ∈ l -> dict_get (zip l (map f l)) k = Some (f k).
Proof.
  induction l as [|y l IH]; intros Hk; [now apply elem_of_nil in Hk|].
  cbn [map zip zip_with dict_get]. case_decide as E; [now subst|].
  apply elem_of_cons in Hk as [->|Hk]; [congruence | now apply IH].
Qed.

Lemma dict_get_zip_some (l : list string) (vs : list value) (k : string) :
  k ∈ l -> length vs = length l -> is_Some (dict_get (zip l vs) k).
Proof.
  revert vs. induction l as [|y l IH]; intros vs Hk Hlen;
    [now apply elem_of_nil in Hk|].
  destruct vs as [|w vs]; [discriminate|].
  cbn [zip zip_with dict_get]. case_decide as E; [eexists; reflexivity|].
  apply elem_of_cons in Hk as [->|Hk]; [congruence|].
  apply IH; [assumption | now injection Hlen].
Qed.

(** The rebuilt table has the other columns in their order, the same
    rowids in the same order, and in every row the value each remaining
    column had. *)
Lemma rebuilt_content (t : table) (c : string) :
  table_ok t ->
  tcolumns (rebuilt t c) = filter (fun y => y ≠ c) (tcolumns t) /\
  map fst (trows (rebuilt t c)) = map fst (trows t) /\
  Forall2 (fun r r' : Z * list value =>
             fst r' = fst r /\
             forall c', c' ∈ tcolumns t -> c' ≠ c ->
                        cell (rebuilt t c) r' c' = cell t r c')
          (trows t) (trows (rebuilt t c)).
Proof.
  intros [Hne Hid Hnd Hno Hw Hs]. unfold rebuilt. cbn [tcolumns trows].
  split; [now apply list_remove_filter|].
  split; [apply copy_row_ids|].
  apply Forall2_fmap_r, Forall_Forall2_diag.
  rewrite Forall_forall in *. intros r Hr. split; [reflexivity|].
  intros c' Hc' Hneq. unfold cell, copy_row. cbn [snd tcolumns].
  assert (Hin : c' ∈ list_remove c (tcolumns t)).
  { rewrite list_remove_filter by assumption. now apply list_elem_of_filter. }
  rewrite (dict_get_zip_map _ _ _ Hin). rewrite bool_decide_eq_true_2 by assumption.
  destruct (dict_get_zip_some (tcolumns t) (snd r) c' Hc' (Hw r Hr)) as [w ->].
  reflexivity.
Qed.

(** C1, where the rebuild runs. After any sequence of calls, deleting a
    present column of the target, when another column remains and no
    table has the shadow table's name, succeeds; the physical table then
    has the remaining columns, which are the registry's list, and every
    row keeps its id and its values in them. *)
Lemma delete_column_preserves (s : SpreadsheetManager) (column_name : string)
  (spreadsheet : option string) (tn c : string) (t : table) :
  reachable s ->
  target spreadsheet s = Some tn ->
  _sanitize_name column_name = Ok c ->
  tables (conn s) !! tn = Some t ->
  c ∈ tcolumns t ->
  filter (fun y => y ≠ c) (tcolumns t) <> [] ->
  name_taken (conn s) ("_temp_" +:+ tn) = false ->
  exists s' t',
    delete_column column_name spreadsheet s =
      (Ok (Done ("Deleted column '" +:+ column_name +:+ "'")), s') /\
    tables (conn s') !! tn = Some t' /\
    tcolumns t' = filter (fun y => y ≠ c) (tcolumns t) /\
    registry_columns s' tn = tcolumns t' /\
    map fst (trows t') = map fst (trows t) /\
    Forall2 (fun r r' : Z * list value =>
               fst r' = fst r /\
               forall c', c' ∈ tcolumns t -> c' ≠ c -> cell t' r' c' = cell t r c')
            (trows t) (trows t').
Proof.
  intros Hreach Et En Ht Hc Hne Htk. apply reachable_wf in Hreach as Hwf.
  pose proof (table_ok_of s tn t Hwf Ht) as Hok.
  rewrite <- list_remove_filter in Hne by apply Hok.
  pose proof (delete_column_rebuilds column_name spreadsheet s tn c t
                Hwf Et En Ht Hc Hne Htk) as Hrun.
  pose proof (delete_column_wf column_name spreadsheet s Hwf) as Hwf'.
  rewrite Hrun in Hwf'. cbn [snd] in Hwf'.
  eexists _, (rebuilt t c). split; [exact Hrun|].
  assert (Hlook : tables (conn (Manager
            (Database (<[tn := rebuilt t c]> (tables (conn s)))
               (<[tn := join "," (list_remove c (tcolumns t))]> (meta (conn s)))
               (<[tn := max_rowid (trows t)]> (sqlite_sequence (conn s))))
            (current_spreadsheet s) (files s) (refused s))) !! tn
          = Some (rebuilt t c)) by apply lookup_insert_eq.
  destruct (rebuilt_content t c Hok) as (Hcols & Hids & Hcells).
  split; [exact Hlook|]. split; [exact Hcols|].
  split; [exact (registry_columns_wf _ tn _ Hwf' Hlook)|].
  split; assumption.
Qed.

(** C1 at the failing input: deleting the only column of a table raises
    [sqlite3.OperationalError], the column definitions of the shadow
    table being empty. *)
Theorem delete_column_last_column_raises :
  _sanitize_name "a" = Ok "a" /\
  registry_columns (after [CreateSpreadsheet "t" ["a"]]) "t" = ["a"] /\
  delete_column "a" None (after [CreateSpreadsheet "t" ["a"]]) =
  (Raise OperationalError, after [CreateSpreadsheet "t" ["a"]]).
Proof. evaluate. Qed.

(** The same in every reachable state: a table with a single column
    cannot lose it. *)
Lemma delete_column_only_column (s : SpreadsheetManager) (column_name : string)
  (spreadsheet : option string) (tn c : string) :
  reachable s ->
  target spreadsheet s = Some tn ->
  _sanitize_name column_name = Ok c ->
  registry_columns s tn = [c] ->
  delete_column column_name spreadsheet s = (Raise OperationalError, s).
Proof.
  intros Hreach Et En Hcols. apply reachable_wf in Hreach as Hwf.
  assert (Hc : c ∈ registry_columns s tn) by (rewrite Hcols; apply elem_of_cons; now left).
  destruct (registry_columns_in s tn c Hwf Hc) as (t & Ht & Hcols' & _).
  rewrite Hcols' in Hc, Hcols.
  apply (delete_column_raises _ _ s tn c t); try assumption.
  left. rewrite Hcols. cbn. now case_decide.
Qed.

(** The shadow table's name may be taken by a spreadsheet of its own. *)
Example delete_column_shadow_taken :
  delete_column "a" None
    (after [CreateSpreadsheet "_temp_t" ["x"]; CreateSpreadsheet "t" ["a"; "b"]])
  = (Raise OperationalError,
     after [CreateSpreadsheet "_temp_t" ["x"]; CreateSpreadsheet "t" ["a"; "b"]]).
Proof. evaluate. Qed.

(** The specification's own scenario: columns a, b, c, two rows, then
    column b is deleted. *)
Example delete_column_scenario :
  fst (get_data None
         (after [CreateSpreadsheet "t" ["a"; "b"; "c"];
                 AddRow [("a", VText "1"); ("b", VText "2"); ("c", VText "3")] None;
                 AddRow [("a", VText "4"); ("c", VText "6")] None;
                 DeleteColumn "b" None]))
  = Ok (Data "t" ["id"; "a"; "c"]
          [[("id", VInt 1); ("a", VText "1"); ("c", VText "3")];
           [("id", VInt 2); ("a", VText "4"); ("c", VText "6")]]).
Proof. evaluate. Qed.

(** ** [add_column] (C3) *)


(** C3 at the failing input: adding a new column to a spreadsheet
    raises [sqlite3.OperationalError]; the column is not added and the
    registry's list is not extended. *)
Theorem add_column_new_column_raises :
  target None demo = Some "expenses" /\
  _sanitize_name "Notes" = Ok "notes" /\
  registry_columns demo "expenses" = ["item"; "amount"] /\
  add_column "Notes" (VText "") None demo = (Raise OperationalError, demo).
Proof. evaluate. Qed.

(** ** Structured outcomes (C2) *)

(** C2 at failing inputs. An empty or blank name makes the sanitizer
    raise [IndexError] in every operation that sanitizes a name; a new
    column and the deletion of the last column raise
    [sqlite3.OperationalError]. *)
Theorem operations_raise :
  create_spreadsheet "" ["a"] (init ∅ ∅) = (Raise IndexError, init ∅ ∅) /\
  create_spreadsheet "t" ["a"; " "] (init ∅ ∅) = (Raise IndexError, init ∅ ∅) /\
  switch_spreadsheet "  " demo = (Raise IndexError, demo) /\
  delete_spreadsheet "" demo = (Raise IndexError, demo) /\
  add_row [("", VText "x")] None demo = (Raise IndexError, demo) /\
  add_column " " (VText "") None demo = (Raise IndexError, demo) /\
  edit_cell 1 "" (VText "x") None demo = (Raise IndexError, demo) /\
  delete_column "" None demo = (Raise IndexError, demo) /\
  add_column "Notes" (VText "") None demo = (Raise OperationalError, demo) /\
  delete_column "a" None (after [CreateSpreadsheet "t" ["a"]]) =
    (Raise OperationalError, after [CreateSpreadsheet "t" ["a"]]).
Proof. evaluate. Qed.

(** Further calls that raise: a table without columns, a column called
    [id], two columns with one sanitized name, an explicit target that
    is no table. *)
Example operations_raise_more :
  fst (create_spreadsheet "t" [] (init ∅ ∅)) = Raise OperationalError /\
  fst (create_spreadsheet "t" ["ID"] (init ∅ ∅)) = Raise OperationalError /\
  fst (create_spreadsheet "t" ["a b"; "a_b"] (init ∅ ∅)) = Raise OperationalError /\
  fst (create_spreadsheet "sqlite_stat" ["a"] (init ∅ ∅)) = Raise OperationalError /\
  fst (delete_row 1 (Some "nowhere") demo) = Raise OperationalError /\
  fst (get_data (Some "nowhere") demo) = Raise OperationalError.
Proof. evaluate. Qed.

(** ** Row ids (C10) *)

(** C10 at the failing input: id 2 is assigned, freed by [delete_row],
    and assigned again by the [add_row] that follows the rebuild. *)
Theorem row_id_reused_after_rebuild :
  fst (run [CreateSpreadsheet "t" ["a"; "b"];
            AddRow [("a", VText "x")] None;
            AddRow [("a", VText "y")] None;
            DeleteRow 2 None;
            DeleteColumn "b" None;
            AddRow [("a", VText "z")] None] (init ∅ ∅))
  = [Ok (Created "t" ["a"; "b"] "Created spreadsheet 't' with columns: a, b");
     Ok (RowAdded 1 "Added row 1");
     Ok (RowAdded 2 "Added row 2");
     Ok (Done "Deleted row 2");
     Ok (Done "Deleted column 'b'");
     Ok (RowAdded 2 "Added row 2")].
Proof. evaluate. Qed.

(** Without the rebuild the freed id stays retired. *)
Example row_id_not_reused_without_rebuild :
  fst (run [CreateSpreadsheet "t" ["a"; "b"];
            AddRow [("a", VText "x")] None;
            AddRow [("a", VText "y")] None;
            DeleteRow 2 None;
            AddRow [("a", VText "z")] None] (init ∅ ∅))
  = [Ok (Created "t" ["a"; "b"] "Created spreadsheet 't' with columns: a, b");
     Ok (RowAdded 1 "Added row 1");
     Ok (RowAdded 2 "Added row 2");
     Ok (Done "Deleted row 2");
     Ok (RowAdded 3 "Added row 3")].
Proof. evaluate. Qed.

(** ** [get_data] *)

(** What [get_data] returns for a registered table: [id] followed by
    the registry's columns, and the rows in rowid order. *)
Lemma get_data_registered (s : SpreadsheetManager) (spreadsheet : option string)
  (tn : string) (t : table) :
  wf s -> target spreadsheet s = Some tn -> tables (conn s) !! tn = Some t ->
  get_data spreadsheet s =
  (Ok (Data tn ("id" :: tcolumns t) (map (row_dict (tcolumns t)) (trows t))), s).
Proof.
  intros Hwf Et Ht. destruct (target_inv _ _ _ Et) as [Hne _].
  unfold get_data. rewrite Et. unfold bind at 1.
  rewrite get_columns_eq by assumption.
  rewrite (registry_columns_wf s tn t Hwf Ht).
  unfold bind, execute, select_all_order_by_id.
  rewrite (find_table_wf s tn t Hwf Ht). cbn [rbind]. now rewrite manager_eta.
Qed.

Lemma get_data_selected (s : SpreadsheetManager) (name : string)
  (columns : list string) (rows : list dict) :
  wf s -> get_data None s = (Ok (Data name columns rows), s) ->
  exists t, tables (conn s) !! name = Some t /\ table_ok t /\
            columns = "id" :: tcolumns t /\
            rows = map (row_dict (tcolumns t)) (trows t).
Proof.
  intros Hwf Hget.
  destruct (target None s) as [tn|] eqn:Et;
    [|unfold get_data in Hget; rewrite Et in Hget; discriminate].
  destruct (target_inv _ _ _ Et) as [_ [[=]|Hcur]].
  destruct (wf_meta _ (wf_conn s Hwf) tn (wf_current s Hwf tn Hcur)) as [t Ht].
  rewrite (get_data_registered s None tn t Hwf Et Ht) in Hget.
  injection Hget as <- <- <-. exists t.
  split; [assumption|]. split; [now apply (table_ok_of s tn)|]. now split.
Qed.

(** ** The chart heuristic (C5) *)


Lemma plottable_of_table (t : table) :
  table_ok t -> plottable_cols ("id" :: tcolumns t) = tcolumns t.
Proof.
  intros Hok. unfold plottable_cols. rewrite filter_cons_False by tauto.
  destruct Hok as [_ _ _ Hno _ _].
  induction (tcolumns t) as [|c l IH]; [reflexivity|].
  apply not_elem_of_cons in Hno as [Hc Hl].
  rewrite filter_cons_True by congruence. now rewrite IH.
Qed.

Lemma auto_plot_type_cases (numeric categorical : list string) :
  (2 <= length numeric -> auto_plot_type numeric categorical = "scatter")%nat /\
  (length numeric = 1%nat -> categorical <> [] ->
   auto_plot_type numeric categorical = "bar") /\
  (length numeric = 1%nat -> categorical = [] ->
   auto_plot_type numeric categorical = "histogram") /\
  (numeric = [] -> auto_plot_type numeric categorical = "bar").
Proof.
  unfold auto_plot_type.
  destruct numeric as [|n1 [|n2 numeric]]; cbn [length Nat.leb Nat.eqb];
    destruct categorical; cbn; repeat split; intros; try reflexivity;
    try congruence; try lia.
Qed.




(** The specification's three examples of the selection. *)
Example plot_type_examples :
  plot_type_chosen decimal_numeral
    (Data "t" ["id"; "category"; "amount"]
       [[("id", VInt 1); ("category", VText "food"); ("amount", VText "$1,200")]]) ""
  = inr "bar" /\
  plot_type_chosen decimal_numeral
    (Data "t" ["id"; "x"; "y"]
       [[("id", VInt 1); ("x", VText "1"); ("y", VText "2")]]) " "
  = inr "scatter" /\
  plot_type_chosen decimal_numeral
    (Data "t" ["id"; "x"]
       [[("id", VInt 1); ("x", VNull)]; [("id", VInt 2); ("x", VText "7")]]) ""
  = inr "histogram" /\
  plot_type_chosen decimal_numeral
    (Data "t" ["id"; "a"; "b"]
       [[("id", VInt 1); ("a", VText "u"); ("b", VText "")]]) ""
  = inr "bar" /\
  plot_type_chosen decimal_numeral
    (Data "t" ["id"; "a"] [[("id", VInt 1); ("a", VText "u")]]) " PIE"
  = inr "pie" /\
  plot_type_chosen decimal_numeral (Data "t" ["id"; "a"] []) ""
  = inl "Error: No data to plot. The spreadsheet is empty.".
Proof. evaluate. Qed.

(** ** Reading back what the CSV writer wrote *)





















(** ** [export_csv] (C6) *)







(** The exported text of a session with awkward cells, and what reading
    it back gives. *)
Example export_csv_example :
  files notes_exported !! "out.csv" =
    Some ("id,who,what" +:+ crlf
          +:+ "1," +:+ quoted "a,b" +:+ ","
          +:+ quoted ("say " +:+ quoted (quoted "hi")) +:+ crlf
          +:+ "2,," +:+ quoted (String "x" (String LF "y")) +:+ crlf) /\
  csv_read (default "" (files notes_exported !! "out.csv")) =
    Ok [["id"; "who"; "what"];
        ["1"; "a,b"; "say " +:+ quoted "hi"];
        ["2"; ""; String "x" (String LF "y")]].
Proof. evaluate. Qed.

(** ** More of [add_row] *)





Lemma nonblank_sanitize (x : string) :
  nonblank x = true -> exists y, _sanitize_name x = Ok y /\ is_identifier y = true.
Proof.
  unfold nonblank. intros H.
  assert (Hne : strip x <> "") by (intros E; rewrite E in H; discriminate).
  exists (spec_sanitize (strip x)). pose proof (sanitize_strip_spec x Hne) as Hx.
  split; [exact Hx | now apply (sanitize_inv x)].
Qed.

Lemma blank_sanitize (x : string) :
  nonblank x = false -> _sanitize_name x = Raise IndexError.
Proof.
  unfold nonblank. intros H. apply sanitize_blank. now destruct (strip x).
Qed.






(** A later value for the same column wins, an unknown key is dropped,
    an integer is stored as text, an unnamed column is NULL. *)
Example add_row_example :
  fst (run [CreateSpreadsheet "t" ["a"; "b"; "c"];
            AddRow [("A", VText "1"); ("zz", VText "9"); (" a ", VText "2");
                    ("b", VInt 7)] None;
            GetData None] (init ∅ ∅))
  = [Ok (Created "t" ["a"; "b"; "c"] "Created spreadsheet 't' with columns: a, b, c");
     Ok (RowAdded 1 "Added row 1");
     Ok (Data "t" ["id"; "a"; "b"; "c"]
           [[("id", VInt 1); ("a", VText "2"); ("b", VText "7"); ("c", VNull)]])].
Proof. evaluate. Qed.

(** ** The data model in reachable states *)



(** ** More of the sanitizer *)

(** X3. The sanitizer raises [IndexError] exactly on the names that are
    empty or only whitespace; on every other name it returns a name it
    maps to itself. *)
Theorem sanitize_name_raises (x : string) :
  (_sanitize_name x = Raise IndexError <-> strip x = "") /\
  (strip x = "" \/ exists y, _sanitize_name x = Ok y /\ _sanitize_name y = Ok y).
Proof.
  destruct (strip x) as [|c r] eqn:E.
  - split; [|now left]. split; [reflexivity | intros _; now apply sanitize_blank].
  - assert (Hne : strip x <> "") by (rewrite E; discriminate).
    pose proof (sanitize_strip_spec x Hne) as Hx.
    split; [split; [rewrite Hx; discriminate | discriminate]|].
    right. eexists. split; [exact Hx|].
    apply sanitize_identifier. now apply (sanitize_inv x).
Qed.

(** ** More of [create_spreadsheet] *)




Lemma map_result_blank (l : list string) :
  Exists (fun c => nonblank c = false) l ->
  map_result _sanitize_name l = Raise IndexError.
Proof.
  induction l as [|c l IH]; intros H; [now apply Exists_nil in H|].
  cbn [map_result]. destruct (nonblank c) eqn:Ec.
  - destruct (nonblank_sanitize c Ec) as (c' & -> & _). cbn [rbind].
    apply Exists_cons in H as [H|H]; [congruence|]. now rewrite IH.
  - now rewrite (blank_sanitize c Ec).
Qed.

(** X5. What [create_spreadsheet] does not accept, for a name that
    sanitizes to an unregistered name, in any state: with no column, or
    with columns two of which sanitize to one name or one of which
    sanitizes to [id], it raises [sqlite3.OperationalError]; with an
    empty or blank column name it raises [IndexError]; nothing is
    created or registered, and the selection stays. *)
Theorem create_spreadsheet_raises (s : SpreadsheetManager) (name tn : string)
  (columns : list string) :
  _sanitize_name name = Ok tn ->
  meta (conn s) !! tn = None ->
  (forall sc, map_result _sanitize_name columns = Ok sc ->
     sc = [] \/ ~ NoDup ("id" :: sc) ->
     create_spreadsheet name columns s = (Raise OperationalError, s)) /\
  (Exists (fun c => nonblank c = false) columns ->
   create_spreadsheet name columns s = (Raise IndexError, s)).
Proof.
  intros En Hfree.
  assert (Hstart : create_spreadsheet name columns s =
    (sanitized_columns <- lift (map_result _sanitize_name columns) ;;
     execute (create_table tn sanitized_columns) ;;;
     execute (meta_insert tn (join "," sanitized_columns)) ;;;
     set_current (Some tn) ;;;
     ret (Created tn sanitized_columns
            ("Created spreadsheet '" +:+ name +:+ "' with columns: "
             +:+ join ", " columns))) s).
  { unfold create_spreadsheet. unfold bind at 1, lift at 1. rewrite En.
    unfold bind at 1. rewrite spreadsheet_exists_eq.
    now rewrite bool_decide_eq_false_2 by (rewrite Hfree; intros [? [=]]). }
  rewrite Hstart. split.
  - intros sc Ec Hbad. unfold bind at 1, lift. rewrite Ec.
    unfold bind at 1. rewrite (execute_raise _ s OperationalError); [reflexivity|].
    unfold create_table. destruct Hbad as [-> | Hdup]; [reflexivity|].
    destruct sc as [|c0 sc']; [reflexivity|].
    destruct (name_taken (conn s) tn); [reflexivity|].
    rewrite bool_decide_eq_false_2; [reflexivity|].
    destruct (map_result_sanitize _ _ Ec) as [Hsc _].
    now rewrite (fold_identifiers ("id" :: c0 :: sc')) by (now constructor).
  - intros Hblank. unfold bind, lift. now rewrite (map_result_blank _ Hblank).
Qed.

Lemma create_spreadsheet_raises_witness :
  _sanitize_name "t" = Ok "t" /\ meta (conn demo) !! "t" = None /\
  create_spreadsheet "t" ["Unit Price"; "unit-price"] demo = (Raise OperationalError, demo) /\
  create_spreadsheet "t" ["a"; "  "] demo = (Raise IndexError, demo).
Proof.
  assert (H1 : _sanitize_name "t" = Ok "t") by (vm_compute; reflexivity).
  assert (H2 : meta (conn demo) !! "t" = None) by (vm_compute; reflexivity).
  split; [exact H1|]. split; [exact H2|]. split.
  - refine (proj1 (create_spreadsheet_raises demo "t" "t" _ H1 H2)
              ["unit_price"; "unit_price"] _ _).
    + vm_compute. reflexivity.
    + right. apply (bool_decide_eq_false_1 _). vm_compute. reflexivity.
  - apply (proj2 (create_spreadsheet_raises demo "t" "t" _ H1 H2)).
    apply Exists_cons. right. apply Exists_cons. left. vm_compute. reflexivity.
Defined.

(** ** More of [delete_row] *)




(** ** More of [edit_cell] *)





(** ** The selection *)

Lemma perform_target (c : call) (t1 t2 : option string) (s : SpreadsheetManager) :
  target t1 s = target t2 s ->
  perform (retarget t1 c) s = perform (retarget t2 c) s.
Proof.
  intros H. destruct c; cbn [retarget perform]; try reflexivity;
    unfold add_row, add_column, edit_cell, delete_row, delete_column, get_data,
           export_csv, with_target; now rewrite H.
Qed.

(** X8. [switch_spreadsheet] selects the table the name sanitizes to
    when it is registered and changes nothing else; from then on a call
    that names no target does what the same call does when it names
    that table. For a name that sanitizes to no registered table it
    fails with "Spreadsheet '...' not found" and the selection stays. *)
Theorem switch_spreadsheet_effect (s : SpreadsheetManager) (name tn : string) :
  _sanitize_name name = Ok tn ->
  (is_Some (meta (conn s) !! tn) ->
   exists s',
     switch_spreadsheet name s =
       (Ok (Switched tn ("Switched to spreadsheet '" +:+ name +:+ "'")), s') /\
     conn s' = conn s /\ files s' = files s /\ refused s' = refused s /\
     current_spreadsheet s' = Some tn /\
     forall c, perform (retarget None c) s' = perform (retarget (Some tn) c) s') /\
  (meta (conn s) !! tn = None ->
   switch_spreadsheet name s =
     (Ok (Failure ("Spreadsheet '" +:+ name +:+ "' not found")), s)).
Proof.
  intros En.
  assert (Hstart : switch_spreadsheet name s =
    if bool_decide (is_Some (meta (conn s) !! tn))
    then (Ok (Switched tn ("Switched to spreadsheet '" +:+ name +:+ "'")),
          Manager (conn s) (Some tn) (files s) (refused s))
    else (Ok (Failure ("Spreadsheet '" +:+ name +:+ "' not found")), s)).
  { unfold switch_spreadsheet. unfold bind at 1, lift. rewrite En.
    unfold bind at 1. rewrite spreadsheet_exists_eq.
    now destruct (bool_decide _). }
  rewrite Hstart. split.
  - intros Hreg. rewrite bool_decide_eq_true_2 by assumption.
    eexists. split; [reflexivity|]. cbn [conn files refused current_spreadsheet].
    split_all; try reflexivity.
    intros c. apply perform_target. unfold target. cbn [current_spreadsheet].
    pose proof (sanitize_inv _ _ En) as Hid.
    destruct (identifier_parts tn Hid) as (Hne & _). now rewrite !Hne.
  - intros Hnone. rewrite bool_decide_eq_false_2; [reflexivity|].
    rewrite Hnone. now intros [? [=]].
Qed.

Lemma switch_spreadsheet_effect_witness :
  _sanitize_name "EXPENSES " = Ok "expenses" /\
  is_Some (meta (conn (Manager (conn demo) None ∅ ∅)) !! "expenses") /\
  fst (switch_spreadsheet "EXPENSES " (Manager (conn demo) None ∅ ∅)) =
    Ok (Switched "expenses" "Switched to spreadsheet 'EXPENSES '").
Proof.
  assert (En : _sanitize_name "EXPENSES " = Ok "expenses") by (vm_compute; reflexivity).
  assert (Hreg : is_Some (meta (conn (Manager (conn demo) None ∅ ∅)) !! "expenses"))
    by (apply (bool_decide_unpack _); vm_compute; exact I).
  split; [exact En|]. split; [exact Hreg|].
  destruct (proj1 (switch_spreadsheet_effect _ "EXPENSES " "expenses" En) Hreg)
    as (s' & Hrun & _).
  rewrite Hrun. vm_compute. reflexivity.
Defined.

(** ** More of [get_data] *)

(** X9. [get_data] in a reachable state, on a registered target, returns
    the column list [id] followed by the registry's columns, and one
    dictionary per stored row, in strictly increasing order of id, each
    with exactly the keys of the column list, in that order; the state
    is unchanged. *)
Theorem get_data_ordered (s : SpreadsheetManager) (spreadsheet : option string)
  (tn : string) :
  reachable s ->
  target spreadsheet s = Some tn ->
  is_Some (meta (conn s) !! tn) ->
  exists rows,
    get_data spreadsheet s =
      (Ok (Data tn ("id" :: registry_columns s tn) rows), s) /\
    Forall (fun d : dict => map fst d = "id" :: registry_columns s tn) rows /\
    map (fun d => dict_get d "id") rows =
      map (fun i => Some (VInt i)) (map fst (stored_rows s tn)) /\
    StronglySorted Z.lt (map fst (stored_rows s tn)).
Proof.
  intros Hreach Et Hreg. apply reachable_wf in Hreach as Hwf.
  destruct (wf_meta _ (wf_conn s Hwf) tn Hreg) as [t Ht].
  destruct (wf_tables _ (wf_conn s Hwf) tn t Ht) as (_ & _ & Hok & _).
  rewrite (registry_columns_wf s tn t Hwf Ht), (stored_rows_wf s tn t Hwf Ht).
  exists (map (row_dict (tcolumns t)) (trows t)).
  split; [now apply get_data_registered|]. split; [|split; [|apply (ok_sorted t Hok)]].
  - apply Forall_forall. intros d Hd.
    apply list_elem_of_fmap in Hd as (r & -> & Hr).
    pose proof (proj1 (Forall_forall _ _) (ok_widths t Hok) r Hr) as Hw.
    unfold row_dict. cbn [map fst]. f_equal.
    apply (fst_zip (tcolumns t) (snd r)). cbn in Hw. lia.
  - rewrite !map_map. apply map_ext. intros r. cbn. now rewrite decide_True.
Qed.

Lemma get_data_ordered_witness :
  reachable demo /\ target None demo = Some "expenses" /\
  exists rows,
    get_data None demo = (Ok (Data "expenses" ["id"; "item"; "amount"] rows), demo) /\
    map (fun d => dict_get d "id") rows = [Some (VInt 1); Some (VInt 2)].
Proof.
  assert (Et : target None demo = Some "expenses") by (vm_compute; reflexivity).
  split; [exact demo_reachable|]. split; [exact Et|].
  destruct (get_data_ordered demo None "expenses" demo_reachable Et)
    as (rows & Hrun & _ & Hids & _).
  - apply (bool_decide_unpack _). vm_compute. exact I.
  - assert (Hc : registry_columns demo "expenses" = ["item"; "amount"])
      by (vm_compute; reflexivity).
    assert (Hr : map fst (stored_rows demo "expenses") = [1; 2])
      by (vm_compute; reflexivity).
    rewrite Hc in Hrun. rewrite Hr in Hids. exists rows. split; [exact Hrun | exact Hids].
Defined.

(** ** Row ids over a session *)












(** ** More of [delete_column] *)

(** X11. [delete_column] in a reachable state, on a registered target.
    For a column the table does not have it fails with "Column '...'
    not found" and changes nothing. For a column it has, when a table
    already bears the shadow name [_temp_<table>], it raises
    [sqlite3.OperationalError] and changes nothing. Otherwise, another
    column remaining, it succeeds: the table and the registry then list
    the remaining columns in their order, the column is gone, the rows
    keep their ids, their order and their values in the remaining
    columns, and the other tables, their registry entries and the
    selection are untouched. *)
Theorem delete_column_effect (s : SpreadsheetManager) (column_name : string)
  (spreadsheet : option string) (tn c : string) (t : table) :
  reachable s ->
  target spreadsheet s = Some tn ->
  _sanitize_name column_name = Ok c ->
  tables (conn s) !! tn = Some t ->
  ((c ∉ tcolumns t) ->
   delete_column column_name spreadsheet s =
     (Ok (Failure ("Column '" +:+ column_name +:+ "' not found")), s)) /\
  (c ∈ tcolumns t -> name_taken (conn s) ("_temp_" +:+ tn) = true ->
   delete_column column_name spreadsheet s = (Raise OperationalError, s)) /\
  (c ∈ tcolumns t -> name_taken (conn s) ("_temp_" +:+ tn) = false ->
   filter (fun y => y ≠ c) (tcolumns t) <> [] ->
   exists s' t',
     delete_column column_name spreadsheet s =
       (Ok (Done ("Deleted column '" +:+ column_name +:+ "'")), s') /\
     tables (conn s') !! tn = Some t' /\
     tcolumns t' = filter (fun y => y ≠ c) (tcolumns t) /\
     (c ∉ tcolumns t') /\
     registry_columns s' tn = tcolumns t' /\
     map fst (trows t') = map fst (trows t) /\
     Forall2 (fun r r' : Z * list value =>
                fst r' = fst r /\
                forall c', c' ∈ tcolumns t -> c' ≠ c -> cell t' r' c' = cell t r c')
             (trows t) (trows t') /\
     (forall n, n <> tn ->
        tables (conn s') !! n = tables (conn s) !! n /\
        meta (conn s') !! n = meta (conn s) !! n) /\
     current_spreadsheet s' = current_spreadsheet s /\
     files s' = files s).
Proof.
  intros Hreach Et En Ht. apply reachable_wf in Hreach as Hwf.
  pose proof (table_ok_of s tn t Hwf Ht) as Hok.
  split; [|split].
  - intros Hc. rewrite (delete_column_unfold _ _ _ tn c Et En).
    rewrite (registry_columns_wf s tn t Hwf Ht).
    now rewrite bool_decide_eq_false_2.
  - intros Hc Htk. apply (delete_column_raises _ _ s tn c t); auto.
  - intros Hc Htk Hne.
    rewrite <- list_remove_filter in Hne by apply Hok.
    pose proof (delete_column_rebuilds column_name spreadsheet s tn c t
                  Hwf Et En Ht Hc Hne Htk) as Hrun.
    pose proof (delete_column_wf column_name spreadsheet s Hwf) as Hwf'.
    rewrite Hrun in Hwf'. cbn [snd] in Hwf'.
    eexists _, (rebuilt t c). split; [exact Hrun|].
    assert (Hlook : tables (conn (Manager
              (Database (<[tn := rebuilt t c]> (tables (conn s)))
                 (<[tn := join "," (list_remove c (tcolumns t))]> (meta (conn s)))
                 (<[tn := max_rowid (trows t)]> (sqlite_sequence (conn s))))
              (current_spreadsheet s) (files s) (refused s))) !! tn
            = Some (rebuilt t c)) by apply lookup_insert_eq.
    destruct (rebuilt_content t c Hok) as (Hcols & Hids & Hcells).
    split; [exact Hlook|]. split; [exact Hcols|].
    split; [rewrite Hcols; intros Hin; apply list_elem_of_filter in Hin; tauto|].
    split; [exact (registry_columns_wf _ tn _ Hwf' Hlook)|].
    split; [assumption|]. split; [assumption|].
    cbn [conn tables meta current_spreadsheet files].
    split; [|split; reflexivity].
    intros n Hn. now rewrite !lookup_insert_ne.
Qed.

Lemma delete_column_effect_witness :
  reachable demo /\ target None demo = Some "expenses" /\
  fst (delete_column "Item" None demo) = Ok (Done "Deleted column 'Item'") /\
  stored_rows (snd (delete_column "Item" None demo)) "expenses" =
    [(1, [VText "5"]); (2, [VText "3"])] /\
  delete_column "price" None demo = (Ok (Failure "Column 'price' not found"), demo).
Proof.
  assert (Ht : tables (conn demo) !! "expenses" =
    Some (Table ["item"; "amount"]
            [(1, [VText "coffee"; VText "5"]); (2, [VText "tea"; VText "3"])]))
    by (vm_compute; reflexivity).
  assert (Et : target None demo = Some "expenses") by (vm_compute; reflexivity).
  assert (E1 : _sanitize_name "Item" = Ok "item") by (vm_compute; reflexivity).
  assert (E2 : _sanitize_name "price" = Ok "price") by (vm_compute; reflexivity).
  destruct (delete_column_effect demo "Item" None "expenses" "item" _
              demo_reachable Et E1 Ht) as (_ & _ & Hdel).
  destruct (delete_column_effect demo "price" None "expenses" "price" _
              demo_reachable Et E2 Ht) as (Habs & _).
  destruct Hdel as (s' & t' & Hrun & _).
  - apply (bool_decide_unpack _). vm_compute. exact I.
  - vm_compute. reflexivity.
  - apply (bool_decide_unpack _). vm_compute. exact I.
  - split; [exact demo_reachable|]. split; [exact Et|].
    split; [rewrite Hrun; vm_compute; reflexivity|].
    split; [vm_compute; reflexivity|].
    apply Habs. apply (bool_decide_eq_false_1 _). vm_compute. reflexivity.
Defined.

(** ** Targets the registry does not know *)

Lemma registry_columns_none (s : SpreadsheetManager) (tn : string) :
  meta (conn s) !! tn = None -> registry_columns s tn = [].
Proof. unfold registry_columns. now intros ->. Qed.




(** ** More of [export_csv] *)





(** ** The tools *)

Lemma rstrip_idem (s : string) : rstrip (rstrip s) = rstrip s.
Proof.
  induction s as [|c s IH]; [reflexivity|]. cbn [rstrip].
  destruct (rstrip s) as [|d r] eqn:E.
  - destruct (isspace c) eqn:Ec; [reflexivity|]. cbn [rstrip]. now rewrite Ec.
  - change (rstrip (String c (String d r)))
      with (match rstrip (String d r) with
            | EmptyString => if isspace c then EmptyString else String c EmptyString
            | String a r0 => String c (String a r0)
            end).
    now rewrite IH.
Qed.

Lemma lstrip_head (s : string) :
  match lstrip s with
  | EmptyString => True
  | String c _ => isspace c = false
  end.
Proof.
  induction s as [|c s IH]; [exact I|]. cbn [lstrip].
  destruct (isspace c) eqn:Ec; [exact IH | exact Ec].
Qed.

Lemma rstrip_head (c : ascii) (s : string) :
  isspace c = false -> exists r, rstrip (String c s) = String c r.
Proof.
  intros Hc. cbn [rstrip]. destruct (rstrip s); [rewrite Hc|]; eauto.
Qed.

Lemma strip_idem (s : string) : strip (strip s) = strip s.
Proof.
  unfold strip. pose proof (lstrip_head s) as Hh.
  destruct (lstrip s) as [|c y]; [reflexivity|].
  destruct (rstrip_head c y Hh) as [r Hr]. rewrite Hr.
  cbn [lstrip]. rewrite Hh, <- Hr. apply rstrip_idem.
Qed.

Lemma nonblank_strip (s : string) : nonblank (strip s) = nonblank s.
Proof. unfold nonblank. now rewrite strip_idem. Qed.








(** ** [add_row_tool] *)

Lemma split_comma_pieces (s : string) :
  Forall (fun x => comma_free x = true) (split_comma s).
Proof.
  induction s as [|c s IH]; [repeat constructor|]. cbn [split_comma].
  destruct (Ascii.eqb c ","%char) eqn:Ec; [constructor; [reflexivity | exact IH]|].
  destruct (split_comma s) as [|x l]; [repeat constructor; unfold comma_free; cbn;
                                      now rewrite Ec|].
  inversion IH as [|? ? Hx Hl]; subst. constructor; [|exact Hl].
  unfold comma_free in *. cbn [string_existsb]. now rewrite Ec.
Qed.

Lemma split_colon_parts (pair key v : string) :
  split_colon pair = Some (key, v) ->
  comma_free pair = true -> comma_free key = true /\ comma_free v = true.
Proof.
  revert key. induction pair as [|c pair IH]; intros key; cbn [split_colon];
    [discriminate|].
  unfold comma_free in *. cbn [string_existsb].
  destruct (Ascii.eqb c COLON).
  - intros [= <- <-] H. apply negb_true_iff, orb_false_elim in H as [_ H].
    split; [reflexivity | now apply negb_true_iff].
  - destruct (split_colon pair) as [[k w]|]; [|discriminate].
    intros [= <- <-] H. apply negb_true_iff, orb_false_elim in H as [Hc H].
    destruct (IH k eq_refl) as [Hk Hv]; [now apply negb_true_iff|].
    split; [|exact Hv]. cbn [string_existsb]. rewrite Hc. exact Hk.
Qed.

Lemma lstrip_comma_free (s : string) :
  comma_free s = true -> comma_free (lstrip s) = true.
Proof.
  unfold comma_free. induction s as [|c s IH]; [reflexivity|]. cbn [lstrip].
  destruct (isspace c); [|trivial]. cbn [string_existsb]. intros H.
  apply negb_true_iff, orb_false_elim in H as [_ H]. apply IH. now apply negb_true_iff.
Qed.

Lemma rstrip_comma_free (s : string) :
  comma_free s = true -> comma_free (rstrip s) = true.
Proof.
  unfold comma_free. induction s as [|c s IH]; [reflexivity|]. cbn [rstrip string_existsb].
  intros H. apply negb_true_iff, orb_false_elim in H as [Hc H].
  specialize (IH (proj2 (negb_true_iff _) H)).
  destruct (rstrip s) as [|d r].
  - destruct (isspace c); [reflexivity|]. cbn [string_existsb]. now rewrite Hc.
  - cbn [string_existsb] in *. now rewrite Hc.
Qed.

Lemma strip_comma_free (s : string) :
  comma_free s = true -> comma_free (strip s) = true.
Proof. intros H. unfold strip. now apply rstrip_comma_free, lstrip_comma_free. Qed.

Lemma dict_set_forall (P : string * value -> Prop) (k : string) (v : value) (d : dict) :
  P (k, v) -> Forall P d -> Forall P (dict_set k v d).
Proof.
  intros Hk. induction 1 as [|[k' v'] d Hx Hd IH]; cbn [dict_set].
  - now repeat constructor.
  - case_decide; constructor; auto.
Qed.

Lemma dict_set_nodup (k : string) (v : value) (d : dict) :
  NoDup (map fst d) -> NoDup (map fst (dict_set k v d)) /\
  forall x, x ∈ map fst (dict_set k v d) <-> x = k \/ x ∈ map fst d.
Proof.
  induction d as [|[k' v'] d IH]; intros Hnd; cbn [dict_set map fst].
  - split; [repeat constructor; apply not_elem_of_nil|].
    intros x. rewrite elem_of_cons. split; (intros [?|?]; [now left | now right]).
  - apply NoDup_cons in Hnd as [Hk' Hnd]. destruct (IH Hnd) as [IH1 IH2].
    case_decide as Hk; subst; cbn [map fst].
    + split; [apply NoDup_cons; now split|].
      intros x. rewrite !elem_of_cons. tauto.
    + split.
      * apply NoDup_cons. split; [|exact IH1]. rewrite IH2. intros [?|?]; [congruence | contradiction].
      * intros x. rewrite !elem_of_cons, IH2. tauto.
Qed.

Lemma fold_add_pair (P : string * value -> Prop) (l : list string) (d : dict) :
  (forall pair key v, pair ∈ l -> split_colon pair = Some (key, v) ->
                      P (strip key, VText (strip v))) ->
  Forall P d -> Forall P (fold_left add_pair l d).
Proof.
  revert d. induction l as [|pair l IH]; intros d Hl Hd; cbn [fold_left]; [exact Hd|].
  apply IH; [intros p k v Hp; apply Hl, elem_of_cons; now right|].
  unfold add_pair. destruct (split_colon pair) as [[key v]|] eqn:E; [|exact Hd].
  apply dict_set_forall; [|exact Hd]. apply (Hl pair); [apply elem_of_cons; now left | exact E].
Qed.

Lemma fold_add_pair_keys (l : list string) (d : dict) :
  NoDup (map fst d) ->
  NoDup (map fst (fold_left add_pair l d)) /\
  forall x, x ∈ map fst d -> x ∈ map fst (fold_left add_pair l d).
Proof.
  revert d. induction l as [|pair l IH]; intros d Hd; cbn [fold_left]; [now split|].
  unfold add_pair at 2 4. destruct (split_colon pair) as [[key v]|]; [|now apply IH].
  destruct (dict_set_nodup (strip key) (VText (strip v)) d Hd) as [H1 H2].
  destruct (IH _ H1) as [H3 H4]. split; [exact H3|].
  intros x Hx. apply H4, H2. now right.
Qed.

Lemma fold_add_pair_key (l : list string) (d : dict) (pair key v : string) :
  NoDup (map fst d) -> pair ∈ l -> split_colon pair = Some (key, v) ->
  strip key ∈ map fst (fold_left add_pair l d).
Proof.
  revert d. induction l as [|p l IH]; intros d Hd Hin E; [now apply elem_of_nil in Hin|].
  cbn [fold_left]. apply elem_of_cons in Hin as [<-|Hin].
  - unfold add_pair at 2. rewrite E.
    destruct (dict_set_nodup (strip key) (VText (strip v)) d Hd) as [H1 H2].
    apply (proj2 (fold_add_pair_keys l _ H1)), H2. now left.
  - apply IH; [|assumption|assumption].
    unfold add_pair. destruct (split_colon p) as [[k w]|]; [|exact Hd].
    apply (dict_set_nodup _ _ _ Hd).
Qed.

Lemma sanitize_data_blank (cols : list string) (data acc : dict) :
  Exists (fun kv : string * value => nonblank (fst kv) = false) data ->
  sanitize_data cols data acc = Raise IndexError.
Proof.
  revert acc. induction data as [|[key v] data IH]; intros acc H;
    [now apply Exists_nil in H|].
  cbn [sanitize_data]. destruct (nonblank key) eqn:Ek.
  - destruct (nonblank_sanitize key Ek) as (sk & -> & _). cbn [rbind].
    apply IH. apply Exists_cons in H as [H|H]; [cbn in H; congruence | exact H].
  - now rewrite (blank_sanitize key Ek).
Qed.

(** X15. [add_row_tool] reads its text as pairs separated by commas,
    each split at its first colon; a piece without a colon is dropped.
    Every key it hands to [add_row] is stripped and every value is a
    stripped text without a comma, so a value that holds a comma is cut
    at the comma; no key occurs twice. When no piece has a colon it
    answers "Error: No valid data provided ..." and the manager is not
    called. When a piece has a blank key and a spreadsheet is selected,
    [IndexError] leaves the tool and nothing is changed. *)
Theorem add_row_tool_parsing (s : SpreadsheetManager) (data_str : string) :
  Forall (fun kv : string * value =>
            strip (fst kv) = fst kv /\ comma_free (fst kv) = true /\
            exists v, snd kv = VText v /\ strip v = v /\ comma_free v = true)
         (pairs_of data_str) /\
  NoDup (map fst (pairs_of data_str)) /\
  (Forall (fun pair => split_colon pair = None) (split_comma data_str) ->
   add_row_tool data_str s =
     (Ok (ToolResult
            "Error: No valid data provided. Use format 'column:value, column:value'"
            true), s)) /\
  (forall pair key v,
     pair ∈ split_comma data_str -> split_colon pair = Some (key, v) ->
     nonblank key = false -> is_Some (target None s) ->
     add_row_tool data_str s = (Raise IndexError, s)).
Proof.
  split_all.
  - unfold pairs_of. apply fold_add_pair; [|constructor].
    intros pair key v Hin E. cbn [fst snd].
    pose proof (proj1 (Forall_forall _ _) (split_comma_pieces data_str) pair Hin) as Hp.
    destruct (split_colon_parts pair key v E Hp) as [Hk Hv].
    split; [apply strip_idem|]. split; [now apply strip_comma_free|].
    exists (strip v). split; [reflexivity|]. split; [apply strip_idem|].
    now apply strip_comma_free.
  - apply (fold_add_pair_keys (split_comma data_str) []). constructor.
  - intros Hnone. unfold add_row_tool, pairs_of.
    assert (Hd : forall d, fold_left add_pair (split_comma data_str) d = d).
    { induction Hnone as [|pair l Hp _ IH]; intros d; [reflexivity|].
      cbn [fold_left]. unfold add_pair at 2. rewrite Hp. apply IH. }
    now rewrite Hd.
  - intros pair key v Hin E Hblank [tn Et].
    assert (Hkey : strip key ∈ map fst (pairs_of data_str))
      by (apply (fold_add_pair_key _ [] pair key v); [constructor | assumption..]).
    assert (Hex : Exists (fun kv : string * value => nonblank (fst kv) = false)
                         (pairs_of data_str)).
    { apply Exists_exists. apply list_elem_of_fmap in Hkey as (kv & Hk & Hkv).
      exists kv. split; [exact Hkv|]. rewrite <- Hk. now rewrite nonblank_strip. }
    unfold add_row_tool. destruct (pairs_of data_str) as [|kv d] eqn:Ed;
      [now apply Exists_nil in Hex|].
    cbn [is_nil]. unfold bind at 1.
    assert (Hadd : add_row (kv :: d) None s = (Raise IndexError, s)).
    { destruct (target_inv _ _ _ Et) as [Hne _].
      unfold add_row, with_target. rewrite Et.
      unfold bind at 1. rewrite get_columns_eq by assumption.
      unfold bind, lift. now rewrite (sanitize_data_blank _ _ _ Hex). }
    now rewrite Hadd.
Qed.

Lemma add_row_tool_parsing_witness :
  Forall (fun pair => split_colon pair = None) (split_comma "coffee, 5") /\
  add_row_tool "coffee, 5" demo =
    (Ok (ToolResult
           "Error: No valid data provided. Use format 'column:value, column:value'"
           true), demo) /\
  add_row_tool "item: tea, : 3" demo = (Raise IndexError, demo).
Proof.
  assert (H0 : Forall (fun pair => split_colon pair = None) (split_comma "coffee, 5"))
    by (repeat constructor).
  split; [exact H0|]. split.
  - exact (proj1 (proj2 (proj2 (add_row_tool_parsing demo "coffee, 5"))) H0).
  - apply (proj2 (proj2 (proj2 (add_row_tool_parsing demo "item: tea, : 3")))
             " : 3" " " " 3").
    + apply (bool_decide_unpack _). vm_compute. exact I.
    + reflexivity.
    + reflexivity.
    + eexists. vm_compute. reflexivity.
Defined.

(** A value with a comma is cut there, a later pair replaces an earlier
    one for the same key, and the text after a second colon stays. *)
Example pairs_of_example :
  pairs_of "name: Smith, John, at: 10:30 ,name:x" =
  [("name", VText "x"); ("at", VText "10:30")].
Proof. evaluate. Qed.

(** ** [export_csv_tool] *)










(** ** The axes [plot_data_tool] chooses *)

Lemma choose_y_other (kind x : string) (numeric : list string) :
  kind = "scatter" \/ kind = "bar" ->
  NoDup numeric -> numeric <> [] ->
  (2 <= length numeric)%nat \/ (x ∉ numeric) ->
  choose_y "" kind x numeric ∈ numeric /\ choose_y "" kind x numeric <> x.
Proof.
  intros Hkind Hnd Hne Hcase. unfold choose_y. cbn [nonempty negb andb].
  assert (Hk : bool_decide (kind ∈ ["histogram"; "pie"]) = false).
  { apply bool_decide_eq_false_2. destruct Hkind as [-> | ->];
      apply (bool_decide_eq_false_1 _); vm_compute; reflexivity. }
  rewrite Hk. cbn [negb]. destruct numeric as [|n1 numeric]; [congruence|].
  destruct (filter (fun c => c ≠ x) (n1 :: numeric)) as [|c l] eqn:Ef.
  - exfalso.
    assert (Hall : forall c, c ∈ n1 :: numeric -> c = x).
    { intros c Hc. destruct (decide (c = x)) as [|Hcx]; [assumption|].
      assert (Hin : c ∈ filter (fun c => c ≠ x) (n1 :: numeric))
        by (apply list_elem_of_filter; now split).
      rewrite Ef in Hin. now apply elem_of_nil in Hin. }
    destruct Hcase as [Hlen | Hx].
    + destruct numeric as [|n2 numeric]; [cbn in Hlen; lia|].
      apply NoDup_cons in Hnd as [Hn1 _]. apply Hn1.
      rewrite (Hall n1) by (apply elem_of_cons; now left).
      rewrite <- (Hall n2) at 1 by (apply elem_of_cons; right; apply elem_of_cons; now left).
      apply elem_of_cons. now left.
    + apply Hx. rewrite <- (Hall n1) at 1 by (apply elem_of_cons; now left).
      apply elem_of_cons. now left.
  - assert (Hin : c ∈ filter (fun c => c ≠ x) (n1 :: numeric))
      by (rewrite Ef; apply elem_of_cons; now left).
    apply list_elem_of_filter in Hin as [Hcx Hc]. now split.
Qed.

(** X17. The axes [plot_data_tool] chooses when it is given none and no
    plot type, for the data [get_data] returns in a reachable state, at
    least one row. The
    x column is a column of the table, the first categorical one when
    there is one, else the first numeric one. With no numeric column,
    and for a histogram, no y column is chosen. Otherwise the y column
    is a numeric column other than the x column. *)
Theorem automatic_axes (parses_as_float : string -> bool)
  (s : SpreadsheetManager) (name : string) (columns : list string)
  (rows : list dict) :
  reachable s ->
  get_data None s = (Ok (Data name columns rows), s) ->
  rows <> [] ->
  let numeric := numeric_cols parses_as_float rows columns in
  let categorical := categorical_cols parses_as_float rows columns in
  let kind := auto_plot_type numeric categorical in
  let x := choose_x "" numeric categorical (plottable_cols columns) in
  let y := choose_y "" kind x numeric in
  x ∈ columns /\ x <> "id" /\
  (forall c l, categorical = c :: l -> x = c) /\
  (forall c l, categorical = [] -> numeric = c :: l -> x = c) /\
  (numeric = [] -> y = "") /\
  (kind = "histogram" -> y = "") /\
  (numeric <> [] -> kind <> "histogram" -> y ∈ numeric /\ y <> x).
Proof.
  intros Hreach Hget _ numeric categorical kind x y.
  apply reachable_wf in Hreach as Hwf.
  destruct (get_data_selected s name columns rows Hwf Hget)
    as (t & _ & Hok & Hcols & _).
  assert (Hplot : plottable_cols columns = tcolumns t)
    by (rewrite Hcols; now apply plottable_of_table).
  assert (Hsub : forall c, c ∈ plottable_cols columns -> c ∈ columns /\ c <> "id").
  { intros c Hc. unfold plottable_cols in Hc.
    apply list_elem_of_filter in Hc. tauto. }
  assert (Hnum : forall c, c ∈ numeric -> c ∈ plottable_cols columns)
    by (intros c Hc; apply list_elem_of_filter in Hc; tauto).
  assert (Hcat : forall c, c ∈ categorical ->
                           c ∈ plottable_cols columns /\ (c ∉ numeric))
    by (intros c Hc; apply list_elem_of_filter in Hc; tauto).
  assert (Hnd : NoDup numeric).
  { apply NoDup_filter. rewrite Hplot. apply Hok. }
  assert (Hx : x ∈ plottable_cols columns).
  { subst x. unfold choose_x. cbn [nonempty].
    destruct categorical as [|c l] eqn:Ec.
    - destruct numeric as [|n l] eqn:En.
      + rewrite Hplot. pose proof (ok_columns t Hok) as Hne.
        destruct (tcolumns t); [congruence|]. apply elem_of_cons. now left.
      + apply Hnum. apply elem_of_cons. now left.
    - apply Hcat. apply elem_of_cons. now left. }
  destruct (auto_plot_type_cases numeric categorical) as (H2 & H1c & H1 & H0).
  split; [apply (Hsub x Hx)|]. split; [apply (Hsub x Hx)|].
  split; [|split; [|split; [|split]]].
  - intros c l Ec. subst x. unfold choose_x. cbn [nonempty]. now rewrite Ec.
  - intros c l Ec En. subst x. unfold choose_x. cbn [nonempty]. now rewrite Ec, En.
  - intros En. subst y. unfold choose_y. rewrite En.
    now destruct (negb (nonempty "") && _).
  - intros Hk. subst y. unfold choose_y. now rewrite Hk.
  - intros Hne Hk.
    assert (Hcase : (2 <= length numeric)%nat \/
                    (length numeric = 1%nat /\ categorical <> [])).
    { destruct numeric as [|n1 [|n2 l]] eqn:En; [congruence| |left; cbn; lia].
      right. split; [reflexivity|]. intros Ec. apply Hk. subst kind.
      now apply H1. }
    apply choose_y_other; try assumption.
    + destruct Hcase as [Hlen | [Hlen Hc]]; [left; now apply H2 | right; now apply H1c].
    + destruct Hcase as [Hlen | [Hlen Hc]]; [now left | right].
      subst x. unfold choose_x. cbn [nonempty].
      destruct categorical as [|c l] eqn:Ec; [congruence|].
      apply Hcat. apply elem_of_cons. now left.
Qed.

Lemma automatic_axes_witness :
  reachable demo /\
  get_data None demo = (Ok (Data "expenses" ["id"; "item"; "amount"] demo_rows), demo) /\
  choose_x "" (numeric_cols decimal_numeral demo_rows ["id"; "item"; "amount"])
           (categorical_cols decimal_numeral demo_rows ["id"; "item"; "amount"])
           (plottable_cols ["id"; "item"; "amount"]) ∈ ["id"; "item"; "amount"].
Proof.
  assert (Hget : get_data None demo =
            (Ok (Data "expenses" ["id"; "item"; "amount"] demo_rows), demo))
    by (vm_compute; reflexivity).
  split; [exact demo_reachable|]. split; [exact Hget|].
  refine (proj1 (automatic_axes decimal_numeral demo "expenses" _ _ demo_reachable
                   Hget _)).
  discriminate.
Defined.

(** ** Names that the sanitizer identifies *)

Lemma lower_char_idem (c : ascii) : lower_char (lower_char c) = lower_char c.
Proof. destruct c as [[] [] [] [] [] [] [] []]; reflexivity. Qed.

Lemma lower_idem (s : string) : lower (lower s) = lower s.
Proof.
  unfold lower. induction s as [|c s IH]; [reflexivity|].
  cbn [string_map]. now rewrite lower_char_idem, IH.
Qed.

(** X18. The sanitizer does not see letter case or surrounding white
    space: a name, the name in lower case and the name stripped
    sanitize alike, or raise alike. So they name one spreadsheet, and
    one column. *)
Theorem sanitize_name_insensitive (x : string) :
  _sanitize_name (lower x) = _sanitize_name x /\
  _sanitize_name (strip x) = _sanitize_name x.
Proof.
  unfold _sanitize_name. split.
  - now rewrite lower_idem.
  - now rewrite strip_lower, strip_idem, <- strip_lower.
Qed.

(** ** A spreadsheet deleted and created again *)




(** ** A target in another letter case *)

Lemma sql_fold_nonempty (x : string) : nonempty (sql_fold x) = nonempty x.
Proof. now destruct x. Qed.

(** X20. An explicit target is not sanitized. In a reachable state, a
    target that differs from a table's name only in the case of its
    letters is not in the registry, yet SQLite finds the table under
    it: [get_data] returns the table's rows under the column list [id]
    alone, and [delete_row] deletes from the table as if it were
    named exactly. *)
Theorem target_in_other_case (s : SpreadsheetManager) (sp tn : string) (t : table) :
  reachable s ->
  tables (conn s) !! tn = Some t ->
  sql_fold sp = tn ->
  sp <> tn ->
  meta (conn s) !! sp = None /\
  get_data (Some sp) s =
    (Ok (Data sp ["id"] (map (row_dict (tcolumns t)) (trows t))), s) /\
  forall row_id, delete_row row_id (Some sp) s = delete_row row_id (Some tn) s.
Proof.
  intros Hreach Ht Hfold Hne. apply reachable_wf in Hreach as Hwf.
  destruct (wf_tables _ (wf_conn s Hwf) tn t Ht) as (Hid & _).
  destruct (identifier_parts tn Hid) as (Hn & _).
  assert (Hsp : nonempty sp = true) by (now rewrite <- sql_fold_nonempty, Hfold).
  assert (Hm : meta (conn s) !! sp = None).
  { destruct (meta (conn s) !! sp) as [cols|] eqn:Em; [|reflexivity]. exfalso.
    destruct (wf_meta _ (wf_conn s Hwf) sp) as [t' Ht']; [eexists; exact Em|].
    destruct (wf_tables _ (wf_conn s Hwf) sp t' Ht') as (Hid' & _).
    apply Hne. now rewrite <- Hfold, (sql_fold_identifier sp Hid'). }
  split; [exact Hm|]. split.
  - unfold get_data. rewrite target_explicit by assumption.
    unfold bind at 1. rewrite get_columns_eq by assumption.
    rewrite (registry_columns_none s sp Hm).
    unfold bind, execute, select_all_order_by_id, find_table.
    rewrite Hfold, Ht. cbn [rbind ret]. now rewrite manager_eta.
  - intros row_id. unfold delete_row, with_target.
    rewrite !target_explicit by assumption.
    unfold bind, execute, delete_from, find_table.
    now rewrite Hfold, (sql_fold_identifier tn Hid).
Qed.

Lemma target_in_other_case_witness :
  reachable demo /\ sql_fold "Expenses" = "expenses" /\
  get_data (Some "Expenses") demo =
    (Ok (Data "Expenses" ["id"]
           [[("id", VInt 1); ("item", VText "coffee"); ("amount", VText "5")];
            [("id", VInt 2); ("item", VText "tea"); ("amount", VText "3")]]), demo).
Proof.
  assert (Ht : tables (conn demo) !! "expenses" =
    Some (Table ["item"; "amount"]
            [(1, [VText "coffee"; VText "5"]); (2, [VText "tea"; VText "3"])]))
    by (vm_compute; reflexivity).
  assert (Hf : sql_fold "Expenses" = "expenses") by reflexivity.
  split; [exact demo_reachable|]. split; [exact Hf|].
  refine (proj1 (proj2 (target_in_other_case demo "Expenses" "expenses" _
                          demo_reachable Ht Hf _))).
  discriminate.
Defined.
